(** * pygame_cards: the application shell of [game_app.py]

    A shallow embedding of [pygame_cards/game_app.py]: the [GameApp] base
    class, its inner [GuiInterface] and the [RenderThread].  Python objects
    become records in one [world]; methods become computations of a small
    state-and-exception monad that also records the calls made to the
    libraries outside the file (pygame, threading, sys, gui) as a trace. *)

From Stdlib Require Import ZArith String List Bool Lia.
From stdpp Require Import base option list gmap strings.
Import ListNotations.

Local Open Scope string_scope.
Local Open Scope Z_scope.
Local Open Scope list_scope.
Set Warnings "-register-all".

(** ** Python values as [json.load] produces them *)

(** [PNone] is both JSON [null] and the [None] the constructor writes first.
    A float is kept as mantissa and binary exponent; the file never computes
    with one.  A dict is kept as the list of its items (keys are unique in a
    dict; [dict_get] reads the binding of a key). *)
Inductive pyval : Type :=
| PNone
| PBool (b : bool)
| PInt (z : Z)
| PFloat (m e : Z)
| PStr (s : string)
| PList (items : list pyval)
| PDict (items : list (string * pyval)).

(** Exceptions the file raises itself or lets through. *)
Inductive exn : Type :=
| IOError (path : string)
| KeyError (key : pyval)
| IndexError
| TypeError
| AttributeError (attr : string)
| ValueError (args : list string)
| RuntimeError (msg : string)
| SystemExit
| ForeignError (tag : string).

Fixpoint dict_get (items : list (string * pyval)) (k : string) : option pyval :=
  match items with
  | [] => None
  | (k', v) :: rest => if String.eqb k' k then Some v else dict_get rest k
  end.

(** [v[k]] with a string key: only a dict answers; a missing key is a
    [KeyError], any other receiver a [TypeError]. *)
Definition getitem_str (v : pyval) (k : string) : exn + pyval :=
  match v with
  | PDict items =>
      match dict_get items k with
      | Some x => inr x
      | None => inl (KeyError (PStr k))
      end
  | _ => inl TypeError
  end.

(** [v[i]] with the literal indices 0 and 1 that [render] uses. *)
Definition getitem_int (v : pyval) (i : nat) : exn + pyval :=
  match v with
  | PList items =>
      match nth_error items i with
      | Some x => inr x
      | None => inl IndexError
      end
  | PStr s =>
      match String.get i s with
      | Some c => inr (PStr (String c EmptyString))
      | None => inl IndexError
      end
  | PDict _ => inl (KeyError (PInt (Z.of_nat i)))
  | _ => inl TypeError
  end.

(** ** Events, threads, trace *)

Record event : Type := { type : Z }.

(** The three event codes of pygame the file compares with. *)
Class PygameConsts : Type :=
  { QUIT : Z; MOUSEBUTTONUP : Z; MOUSEBUTTONDOWN : Z }.

(** Where the render thread stands inside
    [while not stopped: tick; render; flip]: before one of the four
    statements. *)
Inductive render_pc : Type := AtCheck | AtTick | AtRender | AtFlip.

(** The render thread as the main thread finds it.  The two threads share
    the world without any lock; their steps are not interleaved here.
    [Running pc] says where the thread stands when the main thread next
    waits for it, and what is proved about [join] is proved for every
    [pc] and every world. *)
Inductive thread_state : Type :=
| Unstarted
| Running (pc : render_pc)
| Finished.

Definition ref := nat.

Inductive hook : Type :=
| h_load_game_settings_from_json
| h_process_mouse_event (down : bool)
| h_build_game_objects
| h_render_objects
| h_execute_game.

(** Calls that leave the file, in the order they are made. *)
Inductive action : Type :=
| a_pygame_init
| a_font_init
| a_set_caption (t : pyval)
| a_set_mode (sz : pyval)
| a_screen_fill (c : pyval)
| a_new_clock
| a_clock_tick (fps : Z)
| a_draw_rect (color : pyval) (x y : Z) (w h : pyval)
| a_display_flip
| a_print (s : string)
| a_widget_render (g : ref)
| a_store_stopped (b : bool)
| a_thread_start
| a_thread_join
| a_thread_end (uncaught : option exn)
| a_sys_exit
| a_call (h : hook).

Inductive outcome (A : Type) : Type :=
| Normal (a : A)
| Raised (e : exn)
| Diverged.
Arguments Normal {A} a.
Arguments Raised {A} e.
Arguments Diverged {A}.

(** ** Collaborators outside the file *)

(** The [gui] module: its widgets are opaque here.  [expired g] is what
    [hasattr(g, 'expired') and g.expired] reads ([None]: no such attribute);
    [widget_render] is [g.render()], which may change the widget itself and
    may raise. *)
Class GuiLib : Type :=
  { widget : Type;
    callback : Type;
    expired : widget -> option bool;
    Title : pyval -> string -> widget;
    Button : pyval -> callback -> string -> widget;
    widget_render : widget -> widget * option exn }.

(** The game controller a subclass installs: [render_objects(screen)] and
    [execute_game()] act on the controller and may raise. *)
Class Controller : Type :=
  { controller : Type;
    render_objects : controller -> controller * option exn;
    execute_game : controller -> controller * option exn }.

Section Shell.

Context {consts : PygameConsts} {guilib : GuiLib} {ctl : Controller}.
Context {attrs : Type}.

(** External functions: [json.load] on the text of a file. *)
Variable json_load : string -> exn + pyval.

(** ** The world: module globals, the application object, the heap *)

Record GuiInterface : Type :=
  { gui_json : pyval;
    gui_list : list ref }.

Record world : Type :=
  { files : gmap string string;
    settings_json : pyval;
    title : pyval;
    background_color : pyval;
    size : pyval;
    screen : bool;
    render_thread : thread_state;
    stopped : bool;
    gui_interface : option GuiInterface;
    game_controller : option controller;
    subclass_attrs : attrs;
    heap : gmap ref widget;
    next_ref : ref;
    event_queue : list (list event) }.

Definition set_settings_json (v : pyval) (w : world) : world :=
  {| files := files w; settings_json := v; title := title w;
     background_color := background_color w; size := size w;
     screen := screen w; render_thread := render_thread w;
     stopped := stopped w; gui_interface := gui_interface w;
     game_controller := game_controller w;
     subclass_attrs := subclass_attrs w; heap := heap w;
     next_ref := next_ref w; event_queue := event_queue w |}.

Definition set_title (v : pyval) (w : world) : world :=
  {| files := files w; settings_json := settings_json w; title := v;
     background_color := background_color w; size := size w;
     screen := screen w; render_thread := render_thread w;
     stopped := stopped w; gui_interface := gui_interface w;
     game_controller := game_controller w;
     subclass_attrs := subclass_attrs w; heap := heap w;
     next_ref := next_ref w; event_queue := event_queue w |}.

Definition set_background_color (v : pyval) (w : world) : world :=
  {| files := files w; settings_json := settings_json w; title := title w;
     background_color := v; size := size w;
     screen := screen w; render_thread := render_thread w;
     stopped := stopped w; gui_interface := gui_interface w;
     game_controller := game_controller w;
     subclass_attrs := subclass_attrs w; heap := heap w;
     next_ref := next_ref w; event_queue := event_queue w |}.

Definition set_size (v : pyval) (w : world) : world :=
  {| files := files w; settings_json := settings_json w; title := title w;
     background_color := background_color w; size := v;
     screen := screen w; render_thread := render_thread w;
     stopped := stopped w; gui_interface := gui_interface w;
     game_controller := game_controller w;
     subclass_attrs := subclass_attrs w; heap := heap w;
     next_ref := next_ref w; event_queue := event_queue w |}.

Definition set_screen (b : bool) (w : world) : world :=
  {| files := files w; settings_json := settings_json w; title := title w;
     background_color := background_color w; size := size w;
     screen := b; render_thread := render_thread w;
     stopped := stopped w; gui_interface := gui_interface w;
     game_controller := game_controller w;
     subclass_attrs := subclass_attrs w; heap := heap w;
     next_ref := next_ref w; event_queue := event_queue w |}.

Definition set_render_thread (t : thread_state) (w : world) : world :=
  {| files := files w; settings_json := settings_json w; title := title w;
     background_color := background_color w; size := size w;
     screen := screen w; render_thread := t;
     stopped := stopped w; gui_interface := gui_interface w;
     game_controller := game_controller w;
     subclass_attrs := subclass_attrs w; heap := heap w;
     next_ref := next_ref w; event_queue := event_queue w |}.

Definition set_stopped (b : bool) (w : world) : world :=
  {| files := files w; settings_json := settings_json w; title := title w;
     background_color := background_color w; size := size w;
     screen := screen w; render_thread := render_thread w;
     stopped := b; gui_interface := gui_interface w;
     game_controller := game_controller w;
     subclass_attrs := subclass_attrs w; heap := heap w;
     next_ref := next_ref w; event_queue := event_queue w |}.

Definition set_gui_interface (g : option GuiInterface) (w : world) : world :=
  {| files := files w; settings_json := settings_json w; title := title w;
     background_color := background_color w; size := size w;
     screen := screen w; render_thread := render_thread w;
     stopped := stopped w; gui_interface := g;
     game_controller := game_controller w;
     subclass_attrs := subclass_attrs w; heap := heap w;
     next_ref := next_ref w; event_queue := event_queue w |}.

Definition set_game_controller (c : option controller) (w : world) : world :=
  {| files := files w; settings_json := settings_json w; title := title w;
     background_color := background_color w; size := size w;
     screen := screen w; render_thread := render_thread w;
     stopped := stopped w; gui_interface := gui_interface w;
     game_controller := c;
     subclass_attrs := subclass_attrs w; heap := heap w;
     next_ref := next_ref w; event_queue := event_queue w |}.

Definition set_heap (h : gmap ref widget) (n : ref) (w : world) : world :=
  {| files := files w; settings_json := settings_json w; title := title w;
     background_color := background_color w; size := size w;
     screen := screen w; render_thread := render_thread w;
     stopped := stopped w; gui_interface := gui_interface w;
     game_controller := game_controller w;
     subclass_attrs := subclass_attrs w; heap := h;
     next_ref := n; event_queue := event_queue w |}.

Definition set_event_queue (q : list (list event)) (w : world) : world :=
  {| files := files w; settings_json := settings_json w; title := title w;
     background_color := background_color w; size := size w;
     screen := screen w; render_thread := render_thread w;
     stopped := stopped w; gui_interface := gui_interface w;
     game_controller := game_controller w;
     subclass_attrs := subclass_attrs w; heap := heap w;
     next_ref := next_ref w; event_queue := q |}.

(** ** The monad: state, trace, exceptions *)

Definition M (A : Type) : Type := world -> list action * world * outcome A.

Definition ret {A} (a : A) : M A := fun w => ([], w, Normal a).

Definition bind {A B} (c : M A) (k : A -> M B) : M B :=
  fun w =>
    match c w with
    | (t1, w1, Normal a) =>
        match k a w1 with
        | (t2, w2, o) => (t1 ++ t2, w2, o)
        end
    | (t1, w1, Raised e) => (t1, w1, Raised e)
    | (t1, w1, Diverged) => (t1, w1, Diverged)
    end.

Definition raise {A} (e : exn) : M A := fun w => ([], w, Raised e).
Definition diverge {A} : M A := fun w => ([], w, Diverged).
Definition emit (a : action) : M unit := fun w => ([a], w, Normal tt).
Definition get {A} (f : world -> A) : M A := fun w => ([], w, Normal (f w)).
Definition modify (f : world -> world) : M unit := fun w => ([], f w, Normal tt).

Definition lift {A} (r : exn + A) : M A :=
  match r with
  | inl e => raise e
  | inr a => ret a
  end.

Definition trace_of {A} (r : list action * world * outcome A) : list action :=
  fst (fst r).
Definition world_of {A} (r : list action * world * outcome A) : world :=
  snd (fst r).
Definition outcome_of {A} (r : list action * world * outcome A) : outcome A :=
  snd r.

Notation "x <- c ;; k" := (bind c (fun x => k))
  (at level 100, c at next level, right associativity).
Notation "c ;; k" := (bind c (fun _ => k))
  (at level 100, right associativity).

(** [raise e if e is not None]: the second component of what a collaborator
    returns. *)
Definition reraise (oe : option exn) : M unit :=
  match oe with
  | Some e => raise e
  | None => ret tt
  end.

Fixpoint for_each {A} (l : list A) (body : A -> M unit) : M unit :=
  match l with
  | [] => ret tt
  | x :: rest => body x ;; for_each rest body
  end.

(** ** The hooks a concrete game supplies *)

Class Subclass : Type :=
  { load_game_settings_from_json : M unit;
    process_mouse_event : bool -> M unit;
    build_game_objects : M unit }.

Context {sub : Subclass}.

Definition call (h : hook) (body : M unit) : M unit :=
  emit (a_call h) ;; body.

(** ** GameApp.GuiInterface

    [check_mouse] comes further down, with the parameters it needs. *)

(** [self] of a [GuiInterface] method is the object the application holds;
    reaching a method through [None] is an [AttributeError]. *)
Definition the_gui (method : string) : M GuiInterface :=
  gi <- get gui_interface ;;
  match gi with
  | Some g => ret g
  | None => raise (AttributeError method)
  end.

Definition set_gui_list (l : list ref) : M unit :=
  modify (fun w =>
    match gui_interface w with
    | Some g => set_gui_interface (Some {| gui_json := gui_json g; gui_list := l |}) w
    | None => w
    end).

Definition new_widget (x : widget) : M ref :=
  r <- get next_ref ;;
  modify (fun w => set_heap (<[r := x]> (heap w)) (S r) w) ;;
  ret r.

Definition deref (g : ref) : M widget :=
  h <- get heap ;;
  match h !! g with
  | Some x => ret x
  | None => raise (ForeignError "dangling reference")
  end.

Definition GuiInterface_init (gui_json0 : pyval) : GuiInterface :=
  {| gui_json := gui_json0; gui_list := [] |}.

Definition show_label (text : string) : M unit :=
  gui <- the_gui "show_label" ;;
  style <- lift (getitem_str (gui_json gui) "notification_label") ;;
  label <- new_widget (Title style text) ;;
  set_gui_list (gui_list gui ++ [label]).

Definition show_button (text : string) (cb : callback) : M unit :=
  gui <- the_gui "show_button" ;;
  style <- lift (getitem_str (gui_json gui) "done_button") ;;
  button <- new_widget (Button style cb text) ;;
  set_gui_list (gui_list gui ++ [button]).

Definition hide_button : M unit := ret tt.

(** [list.remove(g)]: drops the first item equal to [g]; [None] when there is
    none (a [ValueError] in Python). *)
Fixpoint list_remove (g : ref) (l : list ref) : option (list ref) :=
  match l with
  | [] => None
  | x :: rest =>
      if Nat.eqb x g then Some rest
      else option_map (cons x) (list_remove g rest)
  end.

Definition gui_list_remove (g : ref) : M unit :=
  gui <- the_gui "render" ;;
  match list_remove g (gui_list gui) with
  | Some l => set_gui_list l
  | None => raise (ValueError ["list.remove(x): x not in list"])
  end.

Definition is_expired (x : widget) : bool :=
  match expired x with
  | Some true => true
  | _ => false
  end.

(** [g.render()] *)
Definition g_render (g : ref) : M unit :=
  x <- deref g ;;
  emit (a_widget_render g) ;;
  modify (fun w => set_heap (<[g := fst (widget_render x)]> (heap w)) (next_ref w) w) ;;
  reraise (snd (widget_render x)).

(** The [for g in self.gui_list] of [render]: Python's list iterator keeps an
    index into the live list and stops when the index reaches its current
    length, so a removal in the body shifts the items behind it under the
    iterator. *)
Fixpoint render_iter (fuel : nat) (i : nat) : M unit :=
  match fuel with
  | O => diverge
  | S fuel' =>
      gui <- the_gui "render" ;;
      match gui_list gui !! i with
      | None => ret tt
      | Some g =>
          x <- deref g ;;
          (if is_expired x
           then emit (a_print "removing g from gui_list") ;; gui_list_remove g
           else g_render g) ;;
          render_iter fuel' (S i)
      end
  end.

Definition GuiInterface_render : M unit :=
  gui <- the_gui "render" ;;
  render_iter (S (length (gui_list gui))) 0%nat.

(** ** GameApp: settings and construction *)

Definition load_json (path : string) : M pyval :=
  fs <- get files ;;
  match fs !! path with
  | Some text => lift (json_load text)
  | None => raise (IOError path)
  end.

Definition window_setting (key : string) : M pyval :=
  js <- get settings_json ;;
  win <- lift (getitem_str js "window") ;;
  lift (getitem_str win key).

Definition load_settings_from_json : M unit :=
  t <- window_setting "title" ;;
  modify (set_title t) ;;
  c <- window_setting "background_color" ;;
  modify (set_background_color c) ;;
  sz <- window_setting "size" ;;
  modify (set_size sz) ;;
  call h_load_game_settings_from_json load_game_settings_from_json.

Definition not_loaded : exn :=
  ValueError ["settings json file is not loaded"; "GameApp.__init__"].

(** The second half of [__init__]: pygame is started, the window opened and
    the remaining attributes set. *)
Definition open_window : M unit :=
  emit a_pygame_init ;;
  emit a_font_init ;;
  t <- get title ;;
  emit (a_set_caption t) ;;
  sz <- get size ;;
  emit (a_set_mode sz) ;;
  modify (set_screen true) ;;
  c <- get background_color ;;
  emit (a_screen_fill c) ;;
  emit a_new_clock ;;
  modify (set_render_thread Unstarted) ;;
  modify (set_stopped false) ;;
  modify (set_gui_interface None) ;;
  modify (set_game_controller None).

Definition GameApp_init (json_name : string) : M unit :=
  modify (set_title PNone) ;;
  modify (set_background_color PNone) ;;
  modify (set_size PNone) ;;
  js <- load_json json_name ;;
  modify (set_settings_json js) ;;
  match js with
  | PNone => raise not_loaded
  | _ =>
      load_settings_from_json ;;
      open_window
  end.

Definition init_gui : M unit :=
  js <- get settings_json ;;
  gj <- lift (getitem_str js "gui") ;;
  modify (set_gui_interface (Some (GuiInterface_init gj))).

Definition init_game : M unit :=
  init_gui ;;
  call h_build_game_objects build_game_objects.

(** ** GameApp.render and the render thread *)

(** The three statements of [GameApp.render], one by one. *)
Definition draw_background : M unit :=
  c <- get background_color ;;
  sz <- get size ;;
  width <- lift (getitem_int sz 0) ;;
  sz' <- get size ;;
  height <- lift (getitem_int sz' 1) ;;
  emit (a_draw_rect c 0 0 width height).

Definition draw_game_objects : M unit :=
  gc <- get game_controller ;;
  match gc with
  | Some ctrl =>
      emit (a_call h_render_objects) ;;
      modify (set_game_controller (Some (fst (render_objects ctrl)))) ;;
      reraise (snd (render_objects ctrl))
  | None => ret tt
  end.

Definition draw_gui_elements : M unit :=
  gi <- get gui_interface ;;
  match gi with
  | Some _ => GuiInterface_render
  | None => ret tt
  end.

Definition GameApp_render : M unit :=
  draw_background ;;
  draw_game_objects ;;
  draw_gui_elements.

(** One pass through the body of the loop of [RenderThread.run]. *)
Definition render_iteration : M unit :=
  emit (a_clock_tick 300) ;;
  GameApp_render ;;
  emit a_display_flip.

Fixpoint RenderThread_run (fuel : nat) : M unit :=
  match fuel with
  | O => diverge
  | S fuel' =>
      st <- get stopped ;;
      if st then ret tt
      else render_iteration ;; RenderThread_run fuel'
  end.

(** What is left of the iteration the thread is in. *)
Definition rest_of_iteration (pc : render_pc) : M unit :=
  match pc with
  | AtCheck => ret tt
  | AtTick => render_iteration
  | AtRender => GameApp_render ;; emit a_display_flip
  | AtFlip => emit a_display_flip
  end.

(** A thread ends when [run] returns or lets an exception out. *)
Definition as_thread (body : M unit) : M unit :=
  fun w =>
    match body w with
    | (t, w', Normal _) =>
        (t ++ [a_thread_end None], set_render_thread Finished w', Normal tt)
    | (t, w', Raised e) =>
        (t ++ [a_thread_end (Some e)], set_render_thread Finished w', Normal tt)
    | (t, w', Diverged) => (t, w', Diverged)
    end.

(** [threading.Thread.start] and [join] on [self.render_thread]. *)
Definition Thread_start : M unit :=
  th <- get render_thread ;;
  match th with
  | Unstarted => emit a_thread_start ;; modify (set_render_thread (Running AtCheck))
  | _ => raise (RuntimeError "threads can only be started once")
  end.

(** While the caller waits only the render thread runs: it finishes the
    iteration it is in and goes on with its loop. *)
Definition Thread_join (fuel : nat) : M unit :=
  th <- get render_thread ;;
  match th with
  | Unstarted => raise (RuntimeError "cannot join thread before it is started")
  | Running pc =>
      emit a_thread_join ;;
      as_thread (rest_of_iteration pc ;; RenderThread_run fuel)
  | Finished => emit a_thread_join
  end.

Definition start_render_thread : M unit := Thread_start.

(** ** GameApp: events and the main loop *)

Definition sys_exit : M unit := emit a_sys_exit ;; raise SystemExit.

(** [pygame.event.get()]: the batch of events pending at this call. *)
Definition event_get : M (list event) :=
  q <- get event_queue ;;
  match q with
  | [] => ret []
  | evs :: rest => modify (set_event_queue rest) ;; ret evs
  end.

(** The body of the [for event in pygame.event.get()] of [process_events]. *)
Definition process_event (fuel : nat) (ev : event) : M unit :=
  if type ev =? QUIT then
    emit (a_store_stopped true) ;;
    modify (set_stopped true) ;;
    Thread_join fuel ;;
    sys_exit
  else if type ev =? MOUSEBUTTONUP then
    call (h_process_mouse_event false) (process_mouse_event false)
  else if type ev =? MOUSEBUTTONDOWN then
    call (h_process_mouse_event true) (process_mouse_event true)
  else ret tt.

Definition process_events (fuel : nat) : M unit :=
  evs <- event_get ;;
  for_each evs (process_event fuel).

Definition execute_game_logic : M unit :=
  gc <- get game_controller ;;
  match gc with
  | Some ctrl =>
      emit (a_call h_execute_game) ;;
      modify (set_game_controller (Some (fst (execute_game ctrl)))) ;;
      reraise (snd (execute_game ctrl))
  | None => ret tt
  end.

(** [while 1]: [ticks] iterations are run; when they are used up the loop is
    still going. *)
Fixpoint game_loop (fuel ticks : nat) : M unit :=
  match ticks with
  | O => diverge
  | S ticks' =>
      emit (a_clock_tick 60) ;;
      process_events fuel ;;
      execute_game_logic ;;
      game_loop fuel ticks'
  end.

Definition run_game_loop (fuel : nat) : M unit := game_loop fuel fuel.

Definition execute (fuel : nat) : M unit :=
  init_game ;;
  start_render_thread ;;
  run_game_loop fuel.

(** ** GuiInterface.check_mouse *)

(** [pygame.mouse.get_pos()] and the widgets' [check_mouse(pos, down)],
    which belong to pygame and to the [gui] module: a button's handler runs
    its callback, so it may do anything to the world. *)
Variable mouse_get_pos : M (Z * Z).
Variable g_check_mouse : ref -> Z * Z -> bool -> M unit.

(** What is done for one element. *)
Definition check_one (down : bool) (g : ref) : M unit :=
  pos <- mouse_get_pos ;;
  g_check_mouse g pos down.

(** The [for g in self.gui_list] of [check_mouse], by index into the live
    list as in [render]; a handler may lengthen the list, so the fuel is
    given. *)
Fixpoint check_mouse_iter (fuel : nat) (i : nat) (down : bool) : M unit :=
  match fuel with
  | O => diverge
  | S fuel' =>
      gui <- the_gui "check_mouse" ;;
      match gui_list gui !! i with
      | None => ret tt
      | Some g => check_one down g ;; check_mouse_iter fuel' (S i) down
      end
  end.

Definition check_mouse (fuel : nat) (down : bool) : M unit :=
  check_mouse_iter fuel 0%nat down.

(** A computation that leaves the GUI interface, its list included, as it
    is. *)
Definition keeps_gui {A} (c : M A) : Prop :=
  forall w, gui_interface (world_of (c w)) = gui_interface w.

(** ** Vocabulary of the statements *)

(** The world with the element list, or one widget, replaced. *)
Definition with_gui_list (gui : GuiInterface) (l : list ref) (w : world) : world :=
  set_gui_interface (Some {| gui_json := gui_json gui; gui_list := l |}) w.

Definition with_widget (g : ref) (x : widget) (w : world) : world :=
  set_heap (<[g := x]> (heap w)) (next_ref w) w.

(** A result with one more call in front. *)
Definition after {A} (a : action) (r : list action * world * outcome A) :
  list action * world * outcome A :=
  (a :: trace_of r, world_of r, outcome_of r).

(** Iterations the loop of [render] can still make from index [i]. *)
Definition remaining (i : nat) (w : world) : nat :=
  match gui_interface w with
  | Some gui => (length (gui_list gui) - i)%nat
  | None => 0%nat
  end.

(** The element list, empty when there is no GUI interface. *)
Definition element_list (w : world) : list ref :=
  match gui_interface w with
  | Some gui => gui_list gui
  | None => []
  end.

(** Widgets whose [render] returns and does not expire them. *)
Definition steady_widgets : Prop :=
  forall x : widget,
    is_expired x = false ->
    snd (widget_render x) = None /\ is_expired (fst (widget_render x)) = false.

(** Every element of the list is a widget that is not expired. *)
Definition all_live (w : world) : Prop :=
  forall g, In g (element_list w) ->
    exists x, heap w !! g = Some x /\ is_expired x = false.

(** [n] render passes in a row. *)
Fixpoint passes (n : nat) : M unit :=
  match n with
  | O => ret tt
  | S n' => GuiInterface_render ;; passes n'
  end.

(** An event the loop of [process_events] has no branch for. *)
Definition other_event (ev : event) : Prop :=
  type ev <> QUIT /\ type ev <> MOUSEBUTTONUP /\ type ev <> MOUSEBUTTONDOWN.

(** The world in which the constructor reads the parsed settings. *)
Definition loaded (js : pyval) (w : world) : world :=
  set_settings_json js
    (set_size PNone (set_background_color PNone (set_title PNone w))).

(** What rendering never writes: the world with the heap, the GUI interface
    and the game controller blanked. *)
Definition shell_of (w : world) : world :=
  set_heap ∅ (next_ref w) (set_gui_interface None (set_game_controller None w)).

(** The calls a pass of [GameApp.render] can make. *)
Definition is_drawing (a : action) : bool :=
  match a with
  | a_draw_rect _ _ _ _ _ | a_print _ | a_widget_render _
  | a_call h_render_objects => true
  | _ => false
  end.

(** A computation that only draws: it leaves the shell alone, makes only
    drawing calls and comes to an end. *)
Definition drawing_only (c : M unit) : Prop :=
  forall w,
    shell_of (world_of (c w)) = shell_of w /\
    forallb is_drawing (trace_of (c w)) = true /\
    outcome_of (c w) <> Diverged.

(** Frames presented in a trace: its calls of [pygame.display.flip]. *)
Definition is_flip (a : action) : bool :=
  match a with
  | a_display_flip => true
  | _ => false
  end.

Definition frames (t : list action) : nat := length (List.filter is_flip t).

(** [k in v] for a parsed document [v]. *)
Definition has_key (v : pyval) (k : string) : bool :=
  match v with
  | PDict items =>
      match dict_get items k with
      | Some _ => true
      | None => false
      end
  | _ => false
  end.

(** [hasattr(g, 'expired') and g.expired] for the widget behind [g]. *)
Definition expired_in (w : world) (g : ref) : bool :=
  match heap w !! g with
  | Some x => is_expired x
  | None => false
  end.

(** Every element of the list is a widget of the heap. *)
Definition allocated (w : world) : Prop :=
  forall g, g ∈ element_list w -> is_Some (heap w !! g).

(** The elements are distinct widgets of the heap, and the heap holds
    nothing at or above the next reference. *)
Definition gui_wf (w : world) : Prop :=
  NoDup (element_list w) /\
  allocated w /\
  (forall g, is_Some (heap w !! g) -> (g < next_ref w)%nat).

(** The controller after [n] calls of [execute_game]. *)
Definition controller_after (n : nat) (c : controller) : controller :=
  Nat.iter n (fun c' => fst (execute_game c')) c.

(** The calls of [n] iterations of the main loop that find no event to
    handle. *)
Fixpoint quiet_ticks (n : nat) : list action :=
  match n with
  | O => []
  | S n' => a_clock_tick 60 :: a_call h_execute_game :: quiet_ticks n'
  end.

(** The calls the render thread makes: drawing, its tick, the flip and its
    end. *)
Definition is_render_thread_call (a : action) : bool :=
  is_drawing a || is_flip a ||
  match a with
  | a_clock_tick fps => fps =? 300
  | a_thread_end _ => true
  | _ => false
  end.

(** [exp] tells which elements of the list are expired. *)
Definition tracks (exp : ref -> bool) (w : world) : Prop :=
  forall g, g ∈ element_list w ->
    exists x, heap w !! g = Some x /\ is_expired x = exp g.

(** What one pass of [render] makes of a list, by the expiry [exp] of its
    elements: the calls it makes and the list it leaves.  An expired element
    is removed and the element behind it is kept without being looked at. *)
Fixpoint sweep (exp : ref -> bool) (l : list ref) : list action * list ref :=
  match l with
  | [] => ([], [])
  | g :: rest =>
      if exp g then
        match rest with
        | [] => ([a_print "removing g from gui_list"], [])
        | h :: rest' =>
            (a_print "removing g from gui_list" :: fst (sweep exp rest'),
             h :: snd (sweep exp rest'))
        end
      else (a_widget_render g :: fst (sweep exp rest), g :: snd (sweep exp rest))
  end.

(** The elements of a list that are not expired, and how many are. *)
Definition live_of (exp : ref -> bool) (l : list ref) : list ref :=
  List.filter (fun g => negb (exp g)) l.

Definition expired_count (exp : ref -> bool) (l : list ref) : nat :=
  length (List.filter exp l).

(** The list after [n] passes. *)
Fixpoint sweeps (exp : ref -> bool) (n : nat) (l : list ref) : list ref :=
  match n with
  | O => l
  | S n' => sweeps exp n' (snd (sweep exp l))
  end.


End Shell.

(** * A concrete game, to run the embedding on *)

Module Demo.

#[export] Instance pygame_1_9 : PygameConsts :=
  {| QUIT := 12; MOUSEBUTTONUP := 6; MOUSEBUTTONDOWN := 5 |}.

Record label : Type := { text : string; is_over : option bool }.

#[export] Instance labels : GuiLib :=
  {| widget := label;
     callback := unit;
     expired := is_over;
     Title := fun _ t => {| text := t; is_over := Some false |};
     Button := fun _ _ t => {| text := t; is_over := None |};
     widget_render := fun x => (x, None) |}.

#[export] Instance counter : Controller :=
  {| controller := nat;
     render_objects := fun c => (c, None);
     execute_game := fun c => (S c, None) |}.

#[export] Instance game : Subclass (attrs := unit) :=
  {| load_game_settings_from_json := ret tt;
     process_mouse_event := fun down => if down then show_label "down" else ret tt;
     build_game_objects := modify (set_game_controller (Some 0%nat)) |}.

Definition settings : pyval :=
  PDict [("window",
          PDict [("title", PStr "Cards");
                 ("background_color", PList [PInt 0; PInt 100; PInt 0]);
                 ("size", PList [PInt 800; PInt 600])]);
         ("gui",
          PDict [("notification_label", PDict []);
                 ("done_button", PDict [])])].

(** A stand-in for [json.load] that knows three texts. *)
Definition json_load (text : string) : exn + pyval :=
  if String.eqb text "settings" then inr settings
  else if String.eqb text "null" then inr PNone
  else if String.eqb text "{}" then inr (PDict [])
  else inl (ValueError ["No JSON object could be decoded"]).

Definition disk : gmap string string :=
  <["settings.json" := "settings"]>
  (<["null.json" := "null"]>
  (<["empty.json" := "{}"]>
  (<["broken.json" := "{"]> ∅))).

Definition blank : world (attrs := unit) :=
  {| files := disk; settings_json := PNone; title := PNone;
     background_color := PNone; size := PNone; screen := false;
     render_thread := Unstarted; stopped := false; gui_interface := None;
     game_controller := None; subclass_attrs := tt; heap := ∅;
     next_ref := 0%nat; event_queue := [] |}.

Definition gone : label := {| text := "old"; is_over := Some true |}.
Definition live : label := {| text := "new"; is_over := Some false |}.

(** A world whose GUI list is [refs], over the given widgets. *)
Definition showing (refs : list ref) (ws : list (ref * label)) : world (attrs := unit) :=
  set_gui_interface (Some {| gui_json := PDict []; gui_list := refs |})
    (set_heap (list_to_map ws) (length ws) blank).

(** The application in the middle of a game: window open, two labels on
    the screen, a controller, the render thread about to render. *)
Definition playing : world (attrs := unit) :=
  set_render_thread (Running AtRender)
    (set_game_controller (Some 7%nat)
       (set_screen true
          (set_size (PList [PInt 800; PInt 600])
             (set_background_color (PList [PInt 0; PInt 100; PInt 0])
                (set_title (PStr "Cards")
                   (set_settings_json settings
                      (showing [0; 1]%nat
                         [(0%nat, {| text := "a"; is_over := Some false |});
                          (1%nat, {| text := "b"; is_over := None |})]))))))).

(** The application right after [init_gui]: a GUI interface with the two
    styles and no element. *)
Definition stage : world (attrs := unit) :=
  set_settings_json settings
    (set_gui_interface
       (Some (GuiInterface_init
                (PDict [("notification_label", PDict []);
                        ("done_button", PDict [])])))
       blank).

(** The stage with two labels on it, none expired. *)
Definition two_labels : world (attrs := unit) :=
  set_heap (list_to_map [(0%nat, live); (1%nat, live)]) 2%nat
    (set_gui_interface
       (Some {| gui_json := PDict [("notification_label", PDict []);
                                   ("done_button", PDict [])];
                gui_list := [0; 1]%nat |})
       stage).

(** Four labels on the screen, three of them expired. *)
Definition crowd : world (attrs := unit) :=
  showing [0; 1; 2; 3]%nat
    [(0%nat, gone); (1%nat, gone); (2%nat, live); (3%nat, gone)].

(** A pointer that stands still and widgets that report the button. *)
Definition pointer : M (attrs := unit) (Z * Z) := ret (3, 4).

Definition report (g : ref) (pos : Z * Z) (down : bool) : M (attrs := unit) unit :=
  emit (a_print (if down then "pressed" else "released")).

(** Settings whose [window] object has a title only, and settings whose
    [window] is a number. *)
Definition title_only : pyval :=
  PDict [("window", PDict [("title", PStr "Cards")])].

Definition window_a_number : pyval := PDict [("window", PInt 3)].

Definition quit_event : event := {| type := 12 |}.

(** A quit event pending on an application whose render thread was never
    started. *)
Definition never_started : world (attrs := unit) :=
  set_render_thread Unstarted
    (set_event_queue [[ {| type := 12 |} ]] playing).
Definition mouse_down : event := {| type := 5 |}.
Definition mouse_up : event := {| type := 6 |}.
Definition key_down : event := {| type := 2 |}.

End Demo.

(** * A game whose hooks and controller fail *)

Module Faulty.

Import Demo.

Definition broken : Controller :=
  {| controller := nat;
     render_objects := fun c => (S c, Some (ForeignError "draw"));
     execute_game := fun c => (S c, Some (ForeignError "logic")) |}.

Definition game : Subclass (ctl := broken) (attrs := unit) :=
  {| load_game_settings_from_json := raise (ForeignError "settings");
     process_mouse_event := fun _ => ret tt;
     build_game_objects := ret tt |}.

Definition blank : world (ctl := broken) (attrs := unit) :=
  {| files := disk; settings_json := PNone; title := PNone;
     background_color := PNone; size := PNone; screen := false;
     render_thread := Unstarted; stopped := false; gui_interface := None;
     game_controller := None; subclass_attrs := tt; heap := ∅;
     next_ref := 0%nat; event_queue := [] |}.

Definition playing : world (ctl := broken) (attrs := unit) :=
  set_game_controller (ctl := broken) (Some 0%nat)
    (set_size (PList [PInt 800; PInt 600])
       (set_background_color (PList [PInt 0; PInt 100; PInt 0]) blank)).


End Faulty.

(** * Properties *)

Section ShellFacts.

Context {consts : PygameConsts} {guilib : GuiLib} {ctl : Controller}.
Context {attrs : Type} {sub : Subclass (attrs := attrs)}.

Abbreviation world := (world (attrs := attrs)).
Abbreviation M := (M (attrs := attrs)).
Abbreviation drawing_only := (drawing_only (attrs := attrs)).
Abbreviation all_live := (all_live (attrs := attrs)).

Implicit Types (w : world) (ev : event) (fuel : nat).

Notation "x <- c ;; k" := (bind c (fun x => k))
  (at level 100, c at next level, right associativity).
Notation "c ;; k" := (bind c (fun _ => k))
  (at level 100, right associativity).

(** ** Running [bind] *)

Lemma run_eta {A} (r : list action * world * outcome A) :
  r = (trace_of r, world_of r, outcome_of r).
Proof. destruct r as [[t w'] o]. reflexivity. Qed.

Lemma bind_ret {A B} (a : A) (k : A -> M B) w : bind (ret a) k w = k a w.
Proof. unfold bind, ret. destruct (k a w) as [[t w'] o]. reflexivity. Qed.

Lemma bind_get {A B} (f : world -> A) (k : A -> M B) w :
  bind (get f) k w = k (f w) w.
Proof. unfold bind, get. destruct (k (f w) w) as [[t w'] o]. reflexivity. Qed.

Lemma bind_modify {B} (f : world -> world) (k : unit -> M B) w :
  bind (modify f) k w = k tt (f w).
Proof. unfold bind, modify. destruct (k tt (f w)) as [[t w'] o]. reflexivity. Qed.

Lemma bind_emit {B} (a : action) (k : unit -> M B) w :
  bind (emit a) k w =
  (a :: trace_of (k tt w), world_of (k tt w), outcome_of (k tt w)).
Proof. unfold bind, emit. destruct (k tt w) as [[t w'] o]. reflexivity. Qed.

Lemma bind_raise {A B} (e : exn) (k : A -> M B) w :
  bind (raise e) k w = ([], w, Raised e).
Proof. reflexivity. Qed.

Lemma bind_diverge {A B} (k : A -> M B) w :
  bind diverge k w = ([], w, Diverged).
Proof. reflexivity. Qed.

Lemma bind_normal {A B} (c : M A) (k : A -> M B) w t w' a :
  c w = (t, w', Normal a) ->
  bind c k w = (t ++ trace_of (k a w'), world_of (k a w'), outcome_of (k a w')).
Proof.
  intros Hc. unfold bind. rewrite Hc.
  destruct (k a w') as [[t2 w2] o]. reflexivity.
Qed.

Lemma bind_raised {A B} (c : M A) (k : A -> M B) w t w' e :
  c w = (t, w', Raised e) -> bind c k w = (t, w', Raised e).
Proof. intros Hc. unfold bind. rewrite Hc. reflexivity. Qed.

Lemma bind_diverged {A B} (c : M A) (k : A -> M B) w t w' :
  c w = (t, w', Diverged) -> bind c k w = (t, w', Diverged).
Proof. intros Hc. unfold bind. rewrite Hc. reflexivity. Qed.

Lemma bind_assoc {A B C} (c : M A) (k : A -> M B) (k' : B -> M C) w :
  bind (bind c k) k' w = bind c (fun a => bind (k a) k') w.
Proof.
  unfold bind. destruct (c w) as [[t1 w1] [a | e |]]; try reflexivity.
  destruct (k a w1) as [[t2 w2] [b | e |]]; try reflexivity.
  destruct (k' b w2) as [[t3 w3] o]. rewrite app_assoc. reflexivity.
Qed.

Lemma bind_ext {A B} (c : M A) (k k' : A -> M B) w :
  (forall a w', k a w' = k' a w') -> bind c k w = bind c k' w.
Proof.
  intros Hk. unfold bind.
  destruct (c w) as [[t1 w1] [a | e |]]; try reflexivity.
  rewrite Hk. reflexivity.
Qed.

Lemma call_run (h : hook) (body : M unit) w :
  call h body w =
  (a_call h :: trace_of (body w), world_of (body w), outcome_of (body w)).
Proof. unfold call. apply bind_emit. Qed.

Lemma for_each_app {A} (l1 l2 : list A) (body : A -> M unit) w :
  for_each (l1 ++ l2) body w = bind (for_each l1 body) (fun _ => for_each l2 body) w.
Proof.
  revert w. induction l1 as [| x l1 IH]; intros w; simpl.
  - rewrite bind_ret. reflexivity.
  - rewrite bind_assoc. apply bind_ext. intros _ w'. apply IH.
Qed.

(** ** Events *)

Lemma process_event_other fuel ev w :
  other_event ev -> process_event fuel ev w = ([], w, Normal tt).
Proof.
  intros (Hq & Hu & Hd). unfold process_event.
  destruct (Z.eqb_spec (type ev) QUIT); [contradiction |].
  destruct (Z.eqb_spec (type ev) MOUSEBUTTONUP); [contradiction |].
  destruct (Z.eqb_spec (type ev) MOUSEBUTTONDOWN); [contradiction |].
  reflexivity.
Qed.



(** ** The GUI interface *)

(** C8.  [hide_button] does nothing: it makes no call, returns normally and
    leaves the whole world, the GUI interface with its element list
    included, as it was. *)
Theorem hide_button_noop w :
  hide_button w = ([], w, Normal tt) /\
  gui_interface (world_of (hide_button w)) = gui_interface w.
Proof. split; reflexivity. Qed.

(** ** Construction from the settings file *)

Variable json_load : string -> exn + pyval.

Ltac mrun :=
  repeat first
    [ rewrite bind_assoc | rewrite bind_modify | rewrite bind_get
    | rewrite bind_ret | rewrite bind_raise ].

Lemma GameApp_init_loaded path text js w :
  files w !! path = Some text -> json_load text = inr js ->
  GameApp_init json_load path w =
  match js with
  | PNone => ([], loaded js w, Raised not_loaded)
  | _ =>
      bind load_settings_from_json (fun _ => open_window) (loaded js w)
  end.
Proof.
  intros Hfile Hload. unfold GameApp_init, load_json. mrun.
  cbn [files set_size set_background_color set_title].
  rewrite Hfile, Hload. cbn [lift]. mrun.
  destruct js; reflexivity.
Qed.

Lemma GameApp_init_missing path w :
  files w !! path = None ->
  GameApp_init json_load path w =
  ([], set_size PNone (set_background_color PNone (set_title PNone w)),
   Raised (IOError path)).
Proof.
  intros Hfile. unfold GameApp_init, load_json. mrun.
  cbn [files set_size set_background_color set_title].
  rewrite Hfile. mrun. reflexivity.
Qed.

Lemma GameApp_init_malformed path text e w :
  files w !! path = Some text -> json_load text = inl e ->
  GameApp_init json_load path w =
  ([], set_size PNone (set_background_color PNone (set_title PNone w)),
   Raised e).
Proof.
  intros Hfile Hload. unfold GameApp_init, load_json. mrun.
  cbn [files set_size set_background_color set_title].
  rewrite Hfile, Hload. cbn [lift]. mrun. reflexivity.
Qed.

(** C5.  A settings file that parses to [None] makes the constructor raise
    its own [ValueError('settings json file is not loaded',
    'GameApp.__init__')]; a file that is not there makes [load_json] raise
    the [IOError] of [open], and a text [json.load] rejects makes it raise
    the parser's error, both passed on unchanged.  In all three cases
    nothing has been called yet. *)
Theorem startup_failures path w :
  (forall text, files w !! path = Some text -> json_load text = inr PNone ->
     outcome_of (GameApp_init json_load path w) = Raised not_loaded /\
     trace_of (GameApp_init json_load path w) = []) /\
  (files w !! path = None ->
     outcome_of (GameApp_init json_load path w) = Raised (IOError path) /\
     trace_of (GameApp_init json_load path w) = []) /\
  (forall text e, files w !! path = Some text -> json_load text = inl e ->
     outcome_of (GameApp_init json_load path w) = Raised e /\
     trace_of (GameApp_init json_load path w) = []).
Proof.
  split; [| split].
  - intros text Hfile Hload.
    rewrite (GameApp_init_loaded _ _ _ _ Hfile Hload). split; reflexivity.
  - intros Hfile. rewrite (GameApp_init_missing _ _ Hfile). split; reflexivity.
  - intros text e Hfile Hload.
    rewrite (GameApp_init_malformed _ _ _ _ Hfile Hload). split; reflexivity.
Qed.

Lemma window_setting_found key items win w :
  settings_json w = PDict items -> dict_get items "window" = Some win ->
  window_setting key w = lift (getitem_str win key) w.
Proof.
  intros Hjs Hwin. unfold window_setting. mrun. rewrite Hjs.
  cbn [getitem_str]. rewrite Hwin. cbn [lift]. mrun. reflexivity.
Qed.

Lemma bind_window_setting {B} key items win v (k : pyval -> M B) w :
  settings_json w = PDict items ->
  dict_get items "window" = Some (PDict win) ->
  dict_get win key = Some v ->
  bind (window_setting key) k w = k v w.
Proof.
  intros Hjs Hwin Hkey.
  transitivity (bind (ret v) k w); [| apply bind_ret].
  unfold bind.
  rewrite (window_setting_found key items (PDict win) w Hjs Hwin).
  cbn [getitem_str]. rewrite Hkey. reflexivity.
Qed.

Lemma window_setting_absent key w :
  has_key (settings_json w) "window" = false ->
  exists e, window_setting key w = ([], w, Raised e) /\
    forall items, settings_json w = PDict items -> e = KeyError (PStr "window").
Proof.
  intros Hno. unfold window_setting. mrun.
  destruct (settings_json w) as [| b | z | m e | s | l | items] eqn:Hjs;
    try (exists TypeError; split; [reflexivity | discriminate]).
  cbn [has_key getitem_str] in *.
  destruct (dict_get items "window"); [discriminate |].
  exists (KeyError (PStr "window")). split; [reflexivity | reflexivity].
Qed.

(** C4.  When the parsed settings have no top-level [window] key the
    constructor fails in its settings-loading step: it raises, it has called
    nothing of pygame by then, and no window has been opened.  For a
    document that is an object the exception is [KeyError('window')]. *)
Theorem missing_window_fails path text js w :
  files w !! path = Some text -> json_load text = inr js ->
  has_key js "window" = false ->
  exists e,
    outcome_of (GameApp_init json_load path w) = Raised e /\
    trace_of (GameApp_init json_load path w) = [] /\
    screen (world_of (GameApp_init json_load path w)) = screen w /\
    (forall items, js = PDict items -> e = KeyError (PStr "window")).
Proof.
  intros Hfile Hload Hno.
  rewrite (GameApp_init_loaded _ _ _ _ Hfile Hload).
  destruct (window_setting_absent "title" (loaded js w) Hno) as (e & Hrun & He).
  assert (Hfail : bind load_settings_from_json (fun _ => open_window) (loaded js w)
      = ([], loaded js w, Raised e)).
  { unfold load_settings_from_json. rewrite bind_assoc.
    apply bind_raised. exact Hrun. }
  destruct js as [| b | z | m x | s | l | items];
    [exists not_loaded; repeat split; discriminate | ..];
    rewrite Hfail; exists e; repeat split; exact He.
Qed.





(** ** One pass of [GuiInterface.render] *)

(** The loop of [render], one iteration unrolled. *)
Lemma render_iter_step fuel (i : nat) w :
  render_iter (S fuel) i w =
  match gui_interface w with
  | None => ([], w, Raised (AttributeError "render"))
  | Some gui =>
      match gui_list gui !! i with
      | None => ([], w, Normal tt)
      | Some g =>
          match heap w !! g with
          | None => ([], w, Raised (ForeignError "dangling reference"))
          | Some x =>
              if is_expired x then
                match list_remove g (gui_list gui) with
                | Some l =>
                    after (a_print "removing g from gui_list")
                      (render_iter fuel (S i) (with_gui_list gui l w))
                | None =>
                    ([a_print "removing g from gui_list"], w,
                     Raised (ValueError ["list.remove(x): x not in list"]))
                end
              else
                match snd (widget_render x) with
                | Some e =>
                    ([a_widget_render g],
                     with_widget g (fst (widget_render x)) w, Raised e)
                | None =>
                    after (a_widget_render g)
                      (render_iter fuel (S i)
                         (with_widget g (fst (widget_render x)) w))
                end
          end
      end
  end.
Proof.
  cbn [render_iter]. unfold the_gui at 1. mrun.
  destruct (gui_interface w) as [gui |] eqn:Hgui; [| reflexivity].
  mrun. destruct (gui_list gui !! i) as [g |]; [| reflexivity].
  unfold deref at 1. mrun.
  destruct (heap w !! g) as [x |] eqn:Hx; [| reflexivity].
  mrun. destruct (is_expired x).
  - mrun. rewrite bind_emit. unfold gui_list_remove, the_gui. mrun.
    rewrite Hgui. mrun.
    destruct (list_remove g (gui_list gui)) as [l |]; [| reflexivity].
    unfold set_gui_list. mrun. rewrite Hgui. reflexivity.
  - unfold g_render, deref. mrun. rewrite Hx. mrun. rewrite bind_emit. mrun.
    unfold with_widget.
    destruct (snd (widget_render x)) as [e |]; cbn [reraise]; mrun; reflexivity.
Qed.

Lemma list_remove_lookup (l : list ref) (i : nat) (g : ref) :
  l !! i = Some g ->
  exists l', list_remove g l = Some l' /\ S (length l') = length l.
Proof.
  revert i. induction l as [| y l IH]; intros i Hi; [discriminate |].
  cbn [list_remove]. destruct (Nat.eqb_spec y g) as [-> | Hne].
  - exists l. split; reflexivity.
  - destruct i as [| i]; [cbn in Hi; congruence |].
    destruct (IH i Hi) as (l' & -> & Hlen).
    exists (y :: l'). split; [reflexivity |]. cbn [length]. rewrite Hlen.
    reflexivity.
Qed.

(** Enough fuel: the pass comes to an end. *)
Lemma render_iter_terminates fuel (i : nat) w :
  (remaining i w < fuel)%nat ->
  outcome_of (render_iter fuel i w) <> Diverged.
Proof.
  revert i w. induction fuel as [| fuel IH]; intros i w Hfuel; [lia |].
  rewrite render_iter_step. unfold remaining in Hfuel.
  destruct (gui_interface w) as [gui |] eqn:Hgui; [| discriminate].
  destruct (gui_list gui !! i) as [g |] eqn:Hi; [| discriminate].
  destruct (heap w !! g) as [x |]; [| discriminate].
  pose proof (lookup_lt_Some _ _ _ Hi) as Hlt.
  destruct (is_expired x).
  - destruct (list_remove_lookup _ _ _ Hi) as (l & -> & Hlen).
    cbn [after outcome_of snd]. apply IH.
    unfold remaining, with_gui_list. cbn. lia.
  - destruct (snd (widget_render x)); [discriminate |].
    cbn [after outcome_of snd]. apply IH.
    unfold remaining, with_widget. cbn. rewrite Hgui. lia.
Qed.

(** A pass writes only the heap and the element list, and makes only
    drawing calls. *)
Lemma render_iter_frame fuel (i : nat) w :
  shell_of (world_of (render_iter fuel i w)) = shell_of w /\
  game_controller (world_of (render_iter fuel i w)) = game_controller w /\
  forallb is_drawing (trace_of (render_iter fuel i w)) = true.
Proof.
  revert i w. induction fuel as [| fuel IH]; intros i w.
  { repeat split. }
  rewrite render_iter_step.
  destruct (gui_interface w) as [gui |] eqn:Hgui; [| repeat split].
  destruct (gui_list gui !! i) as [g |] eqn:Hi; [| repeat split].
  destruct (heap w !! g) as [x |]; [| repeat split].
  destruct (is_expired x).
  - destruct (list_remove g (gui_list gui)) as [l |]; [| repeat split].
    destruct (IH (S i) (with_gui_list gui l w)) as (Hs & Hc & Ht).
    cbn [after trace_of world_of fst snd forallb is_drawing andb] in *.
    rewrite Hs, Hc, Ht. repeat split.
  - destruct (snd (widget_render x)); [repeat split |].
    destruct (IH (S i) (with_widget g (fst (widget_render x)) w)) as (Hs & Hc & Ht).
    cbn [after trace_of world_of fst snd forallb is_drawing andb] in *.
    rewrite Hs, Hc, Ht. repeat split.
Qed.

(** A widget that is expired when the pass starts is not drawn by it, and
    is still expired when the pass ends. *)
Lemma render_iter_expired fuel (i : nat) w (g0 : ref) (x0 : widget) :
  heap w !! g0 = Some x0 -> is_expired x0 = true ->
  heap (world_of (render_iter fuel i w)) !! g0 = Some x0 /\
  ~ In (a_widget_render g0) (trace_of (render_iter fuel i w)).
Proof.
  revert i w. induction fuel as [| fuel IH]; intros i w Hg0 Hexp.
  { split; [exact Hg0 | intros []]. }
  rewrite render_iter_step.
  destruct (gui_interface w) as [gui |] eqn:Hgui; [| split; [exact Hg0 | intros []]].
  destruct (gui_list gui !! i) as [g |] eqn:Hi; [| split; [exact Hg0 | intros []]].
  destruct (heap w !! g) as [x |] eqn:Hx; [| split; [exact Hg0 | intros []]].
  destruct (is_expired x) eqn:Hex.
  - destruct (list_remove g (gui_list gui)) as [l |].
    + destruct (IH (S i) (with_gui_list gui l w) Hg0 Hexp) as (Hh & Ht).
      split; [exact Hh |]. cbn [after trace_of fst]. intros [Heq | Hin].
      * discriminate.
      * exact (Ht Hin).
    + split; [exact Hg0 |]. intros [Heq | []]. discriminate.
  - assert (Hne : g <> g0) by (intros ->; congruence).
    assert (Hg0' : heap (with_widget g (fst (widget_render x)) w) !! g0 = Some x0).
    { unfold with_widget. cbn [heap set_heap]. rewrite lookup_insert_ne; assumption. }
    destruct (snd (widget_render x)).
    + split; [exact Hg0' |]. intros [Heq | []]. congruence.
    + destruct (IH (S i) _ Hg0' Hexp) as (Hh & Ht).
      split; [exact Hh |]. cbn [after trace_of fst]. intros [Heq | Hin].
      * congruence.
      * exact (Ht Hin).
Qed.

Lemma GuiInterface_render_run w :
  GuiInterface_render w =
  match gui_interface w with
  | Some gui => render_iter (S (length (gui_list gui))) 0 w
  | None => ([], w, Raised (AttributeError "render"))
  end.
Proof.
  unfold GuiInterface_render, the_gui. mrun.
  destruct (gui_interface w); mrun; reflexivity.
Qed.

(** A pass only removes elements: the list it leaves is a sublist of the
    list it found. *)
Lemma list_remove_sublist (g : ref) (l l' : list ref) :
  list_remove g l = Some l' -> sublist l' l.
Proof.
  revert l'. induction l as [| y l IH]; intros l' Hrm; [discriminate |].
  cbn [list_remove] in Hrm. destruct (Nat.eqb y g).
  - injection Hrm as <-. apply sublist_cons. reflexivity.
  - destruct (list_remove g l) as [l0 |]; [| discriminate].
    injection Hrm as <-. apply sublist_skip. apply IH. reflexivity.
Qed.

Lemma render_iter_sublist fuel (i : nat) w :
  sublist (element_list (world_of (render_iter fuel i w))) (element_list w).
Proof.
  revert i w. induction fuel as [| fuel IH]; intros i w; [reflexivity |].
  rewrite render_iter_step. unfold element_list at 2.
  destruct (gui_interface w) as [gui |] eqn:Hgui;
    [| unfold element_list; cbn; rewrite Hgui; reflexivity].
  destruct (gui_list gui !! i) as [g |];
    [| unfold element_list; cbn; rewrite Hgui; reflexivity].
  destruct (heap w !! g) as [x |];
    [| unfold element_list; cbn; rewrite Hgui; reflexivity].
  destruct (is_expired x).
  - destruct (list_remove g (gui_list gui)) as [l |] eqn:Hrm;
      [| unfold element_list; cbn; rewrite Hgui; reflexivity].
    cbn [after world_of fst snd].
    etransitivity; [apply IH |]. unfold element_list, with_gui_list. cbn.
    apply (list_remove_sublist g). exact Hrm.
  - destruct (snd (widget_render x));
      [unfold element_list; cbn; rewrite Hgui; reflexivity |].
    cbn [after world_of fst snd].
    etransitivity; [apply IH |]. unfold element_list, with_widget. cbn.
    rewrite Hgui. reflexivity.
Qed.

(** What does hold of a pass of [GuiInterface.render]: it comes to an end,
    it adds no element, and a widget that is expired when it starts is not
    drawn by it and is expired when it ends. *)
Lemma GuiInterface_render_pass w :
  outcome_of (GuiInterface_render w) <> Diverged /\
  sublist (element_list (world_of (GuiInterface_render w))) (element_list w) /\
  forall g x, heap w !! g = Some x -> is_expired x = true ->
    heap (world_of (GuiInterface_render w)) !! g = Some x /\
    ~ In (a_widget_render g) (trace_of (GuiInterface_render w)).
Proof.
  rewrite GuiInterface_render_run.
  destruct (gui_interface w) as [gui |] eqn:Hgui.
  - split; [| split].
    + apply render_iter_terminates. unfold remaining. rewrite Hgui. lia.
    + apply render_iter_sublist.
    + intros g x Hg Hx. apply render_iter_expired; assumption.
  - split; [discriminate | split; [reflexivity |]].
    intros g x Hg Hx. split; [exact Hg | intros []].
Qed.

(** So it is in every later pass, as long as only passes run. *)
Lemma passes_expired_never_drawn (n : nat) w (g : ref) (x : widget) :
  heap w !! g = Some x -> is_expired x = true ->
  ~ In (a_widget_render g) (trace_of (passes n w)).
Proof.
  revert w. induction n as [| n IH]; intros w Hg Hx; [intros [] |].
  cbn [passes]. destruct (GuiInterface_render_pass w) as (_ & _ & Hpass).
  destruct (Hpass g x Hg Hx) as (Hg' & Hnot). unfold bind.
  destruct (GuiInterface_render w) as [[t1 w1] [[] | e |]];
    cbn [trace_of world_of fst snd] in *; try exact Hnot.
  specialize (IH w1 Hg' Hx).
  destruct (passes n w1) as [[t2 w2] o2]. cbn [trace_of fst] in *.
  intros [Hin | Hin]%in_app_or; [exact (Hnot Hin) | exact (IH Hin)].
Qed.

(** The loop is right as long as nothing is removed: a list without expired
    widgets is drawn whole, in order, and left as it is. *)
Lemma render_iter_all_live fuel (i : nat) w gui :
  steady_widgets -> gui_interface w = Some gui -> all_live w ->
  (remaining i w < fuel)%nat ->
  trace_of (render_iter fuel i w) = map a_widget_render (drop i (gui_list gui)) /\
  outcome_of (render_iter fuel i w) = Normal tt /\
  element_list (world_of (render_iter fuel i w)) = gui_list gui.
Proof.
  intros Hsteady. revert i w.
  induction fuel as [| fuel IH]; intros i w Hgui Hlive Hfuel; [lia |].
  rewrite render_iter_step, Hgui.
  destruct (gui_list gui !! i) as [g |] eqn:Hi.
  - destruct (Hlive g) as (x & Hx & Hex).
    { unfold element_list. rewrite Hgui. apply list_elem_of_In.
      apply list_elem_of_lookup. exists i. exact Hi. }
    rewrite Hx, Hex. destruct (Hsteady x Hex) as (Hok & Hex').
    rewrite Hok. cbn [after trace_of world_of outcome_of fst snd].
    destruct (IH (S i) (with_widget g (fst (widget_render x)) w)) as (Ht & Ho & He).
    + exact Hgui.
    + intros g' Hin. unfold with_widget. cbn [heap set_heap].
      destruct (decide (g = g')) as [<- | Hne].
      * rewrite lookup_insert_eq. eexists. split; [reflexivity | exact Hex'].
      * rewrite lookup_insert_ne by exact Hne. apply Hlive.
        unfold element_list in *. cbn in Hin. exact Hin.
    + pose proof (lookup_lt_Some _ _ _ Hi). unfold remaining in *.
      cbn. rewrite Hgui in *. lia.
    + rewrite Ht, Ho, He. rewrite (drop_S _ _ _ Hi). repeat split.
  - rewrite drop_ge by (apply lookup_ge_None; exact Hi).
    unfold element_list. cbn. rewrite Hgui. repeat split.
Qed.

Lemma GuiInterface_render_all_live w gui :
  steady_widgets -> gui_interface w = Some gui -> all_live w ->
  trace_of (GuiInterface_render w) = map a_widget_render (gui_list gui) /\
  outcome_of (GuiInterface_render w) = Normal tt /\
  element_list (world_of (GuiInterface_render w)) = gui_list gui.
Proof.
  intros Hsteady Hgui Hlive. rewrite GuiInterface_render_run, Hgui.
  apply (render_iter_all_live _ 0 w gui Hsteady Hgui Hlive).
  unfold remaining. rewrite Hgui. lia.
Qed.

(** ** [GameApp.render] *)

Lemma drawing_only_ret (a : unit) : drawing_only (ret a : M unit).
Proof. intros w. repeat split. discriminate. Qed.

Lemma drawing_only_raise (e : exn) : drawing_only (raise e : M unit).
Proof. intros w. repeat split. discriminate. Qed.

Lemma drawing_only_bind {A} (c : M A) (k : A -> M unit) :
  (forall w, shell_of (world_of (c w)) = shell_of w /\
             forallb is_drawing (trace_of (c w)) = true /\
             outcome_of (c w) <> Diverged) ->
  (forall a, drawing_only (k a)) ->
  drawing_only (bind c k).
Proof.
  intros Hc Hk w. specialize (Hc w). unfold bind.
  destruct (c w) as [[t1 w1] [a | e |]]; cbn in Hc;
    destruct Hc as (Hs & Ht & Hend);
    [| repeat split; [assumption | assumption | discriminate] | congruence].
  specialize (Hk a w1).
  destruct (k a w1) as [[t2 w2] o]. cbn in Hk |- *.
  destruct Hk as (Hs2 & Ht2 & Ho). rewrite forallb_app, Ht, Ht2, Hs2, Hs.
  repeat split. exact Ho.
Qed.

Lemma drawing_only_background : drawing_only draw_background.
Proof.
  intros w. unfold draw_background. mrun.
  destruct (getitem_int (size w) 0) as [e | width]; cbn [lift]; mrun;
    [repeat split; discriminate |].
  destruct (getitem_int (size w) 1) as [e | height]; cbn [lift]; mrun;
    repeat split; discriminate.
Qed.

Lemma draw_game_objects_run w :
  draw_game_objects w =
  match game_controller w with
  | Some ctrl =>
      ([a_call h_render_objects],
       set_game_controller (Some (fst (render_objects ctrl))) w,
       match snd (render_objects ctrl) with
       | Some e => Raised e
       | None => Normal tt
       end)
  | None => ([], w, Normal tt)
  end.
Proof.
  unfold draw_game_objects. mrun.
  destruct (game_controller w) as [ctrl |]; [| reflexivity].
  rewrite bind_emit. mrun.
  destruct (snd (render_objects ctrl)); reflexivity.
Qed.

Lemma drawing_only_game_objects : drawing_only draw_game_objects.
Proof.
  intros w. rewrite draw_game_objects_run.
  destruct (game_controller w) as [ctrl |]; [| repeat split; discriminate].
  destruct (snd (render_objects ctrl)); repeat split; discriminate.
Qed.

Lemma draw_gui_elements_run w :
  draw_gui_elements w =
  match gui_interface w with
  | Some _ => GuiInterface_render w
  | None => ([], w, Normal tt)
  end.
Proof.
  unfold draw_gui_elements. mrun. destruct (gui_interface w); reflexivity.
Qed.

Lemma drawing_only_gui_elements : drawing_only draw_gui_elements.
Proof.
  intros w. rewrite draw_gui_elements_run, GuiInterface_render_run.
  destruct (gui_interface w) as [gui |] eqn:Hgui; [| repeat split; discriminate].
  destruct (render_iter_frame (S (length (gui_list gui))) 0 w) as (Hs & _ & Ht).
  repeat split; [exact Hs | exact Ht |].
  apply render_iter_terminates. unfold remaining. rewrite Hgui. lia.
Qed.

Lemma drawing_only_render : drawing_only GameApp_render.
Proof.
  unfold GameApp_render.
  apply drawing_only_bind; [apply drawing_only_background |]. intros _.
  apply drawing_only_bind; [apply drawing_only_game_objects |]. intros _.
  apply drawing_only_gui_elements.
Qed.




(** ** The render thread and the quit event *)

Lemma frames_app (t1 t2 : list action) :
  frames (t1 ++ t2) = (frames t1 + frames t2)%nat.
Proof. unfold frames. rewrite List.filter_app, length_app. reflexivity. Qed.

Lemma frames_drawing (t : list action) :
  forallb is_drawing t = true -> frames t = 0%nat.
Proof.
  unfold frames. induction t as [| a t IH]; [reflexivity |].
  cbn [forallb]. intros [Ha Ht]%andb_prop. cbn [List.filter].
  destruct a; try discriminate Ha; cbn [is_flip]; apply IH; exact Ht.
Qed.

Lemma render_then_flip w :
  shell_of (world_of ((GameApp_render ;; emit a_display_flip) w)) = shell_of w /\
  outcome_of ((GameApp_render ;; emit a_display_flip) w) <> Diverged /\
  (frames (trace_of ((GameApp_render ;; emit a_display_flip) w)) <= 1)%nat.
Proof.
  destruct (drawing_only_render w) as (Hs & Ht & Hend). unfold bind.
  destruct (GameApp_render w) as [[t w'] [[] | e |]];
    cbn [trace_of world_of outcome_of fst snd emit] in *.
  - rewrite frames_app, (frames_drawing t Ht). repeat split; [assumption | discriminate | cbn; lia].
  - rewrite (frames_drawing t Ht). repeat split; [assumption | discriminate | lia].
  - congruence.
Qed.

(** Whatever is left of the current iteration leaves the shell (the stop
    flag with it) alone, comes to an end, and presents at most one frame. *)
Lemma rest_of_iteration_spec (pc : render_pc) w :
  shell_of (world_of (rest_of_iteration pc w)) = shell_of w /\
  outcome_of (rest_of_iteration pc w) <> Diverged /\
  (frames (trace_of (rest_of_iteration pc w)) <= 1)%nat.
Proof.
  destruct pc; cbn [rest_of_iteration].
  - repeat split; [discriminate | cbn; lia].
  - unfold render_iteration. rewrite bind_emit.
    cbn [trace_of world_of outcome_of fst snd].
    destruct (render_then_flip w) as (Hs & Hend & Hf).
    repeat split; [exact Hs | exact Hend |].
    change (a_clock_tick 300 :: ?t) with ([a_clock_tick 300] ++ t).
    rewrite frames_app. cbn. exact Hf.
  - apply render_then_flip.
  - repeat split; [discriminate | cbn; lia].
Qed.

(** The loop test comes first: with the flag set, [run] returns without
    rendering. *)
Lemma RenderThread_run_stopped fuel w :
  stopped w = true -> RenderThread_run (S fuel) w = ([], w, Normal tt).
Proof.
  intros Hst. cbn [RenderThread_run]. mrun. rewrite Hst. reflexivity.
Qed.

Lemma thread_winds_down (pc : render_pc) fuel w :
  stopped w = true ->
  as_thread (rest_of_iteration pc ;; RenderThread_run (S fuel)) w =
  (trace_of (rest_of_iteration pc w)
     ++ [a_thread_end match outcome_of (rest_of_iteration pc w) with
                      | Raised e => Some e
                      | _ => None
                      end],
   set_render_thread Finished (world_of (rest_of_iteration pc w)),
   Normal tt).
Proof.
  intros Hst. destruct (rest_of_iteration_spec pc w) as (Hs & Hend & _).
  apply (f_equal stopped) in Hs. cbn [stopped shell_of set_heap set_gui_interface
    set_game_controller] in Hs. rewrite Hst in Hs.
  unfold as_thread, bind.
  destruct (rest_of_iteration pc w) as [[t w'] [[] | e |]];
    cbn [trace_of world_of outcome_of fst snd] in *.
  - rewrite (RenderThread_run_stopped fuel w' Hs). rewrite app_nil_r. reflexivity.
  - reflexivity.
  - congruence.
Qed.

Lemma sys_exit_run w : sys_exit w = ([a_sys_exit], w, Raised SystemExit).
Proof. reflexivity. Qed.

(** Before the render thread has been started, [join] raises and the quit
    branch never reaches [sys.exit]. *)
Lemma quit_before_start fuel ev w :
  type ev = QUIT -> render_thread w = Unstarted ->
  process_event fuel ev w =
  ([a_store_stopped true], set_stopped true w,
   Raised (RuntimeError "cannot join thread before it is started")).
Proof.
  intros Hev Hth. unfold process_event. rewrite Hev, Z.eqb_refl.
  rewrite bind_emit. mrun. unfold Thread_join. mrun.
  cbn [render_thread set_stopped]. rewrite Hth. mrun. reflexivity.
Qed.

(** The body of the loop on a quit event, with the render thread started. *)
Lemma process_event_quit fuel ev w :
  type ev = QUIT -> render_thread w <> Unstarted ->
  (exists during,
     trace_of (process_event (S fuel) ev w) =
       a_store_stopped true :: a_thread_join :: during ++ [a_sys_exit] /\
     (frames during <= 1)%nat /\
     (forall pc, render_thread w = Running pc ->
        exists e,
          during =
          trace_of (rest_of_iteration pc (set_stopped true w)) ++ [a_thread_end e]) /\
     (render_thread w = Finished -> during = [])) /\
  outcome_of (process_event (S fuel) ev w) = Raised SystemExit /\
  stopped (world_of (process_event (S fuel) ev w)) = true /\
  render_thread (world_of (process_event (S fuel) ev w)) = Finished /\
  (forall n w', stopped w' = true -> RenderThread_run (S n) w' = ([], w', Normal tt)).
Proof.
  intros Hev Hth.
  assert (Hrun : process_event (S fuel) ev w =
    after (a_store_stopped true) (bind (Thread_join (S fuel)) (fun _ => sys_exit)
      (set_stopped true w))).
  { unfold process_event. rewrite Hev, Z.eqb_refl. rewrite bind_emit. mrun.
    reflexivity. }
  rewrite Hrun. clear Hrun. unfold Thread_join. mrun.
  cbn [render_thread set_stopped].
  split; [| split; [| split; [| split]]];
    [| | | | intros n w' Hst; apply RenderThread_run_stopped; exact Hst];
    destruct (render_thread w) as [| pc |] eqn:Hstate; try congruence.
  - rewrite bind_assoc, bind_emit.
    erewrite bind_normal by (apply thread_winds_down; reflexivity).
    rewrite sys_exit_run. cbn [after trace_of world_of outcome_of fst snd].
    eexists. split; [reflexivity |].
    destruct (rest_of_iteration_spec pc (set_stopped true w)) as (_ & _ & Hf).
    split; [| split].
    + rewrite frames_app. cbn. lia.
    + intros pc' [= <-]. eexists. reflexivity.
    + discriminate.
  - rewrite bind_emit, sys_exit_run.
    cbn [after trace_of world_of outcome_of fst snd].
    exists []. repeat split; [cbn; lia | discriminate].
  - rewrite bind_assoc, bind_emit.
    erewrite bind_normal by (apply thread_winds_down; reflexivity).
    reflexivity.
  - rewrite bind_emit, sys_exit_run. reflexivity.
  - rewrite bind_assoc, bind_emit.
    erewrite bind_normal by (apply thread_winds_down; reflexivity).
    rewrite sys_exit_run. cbn [after trace_of world_of outcome_of fst snd].
    cbn [stopped set_render_thread].
    destruct (rest_of_iteration_spec pc (set_stopped true w)) as (Hs & _ & _).
    apply (f_equal stopped) in Hs. exact Hs.
  - rewrite bind_emit, sys_exit_run. reflexivity.
  - rewrite bind_assoc, bind_emit.
    erewrite bind_normal by (apply thread_winds_down; reflexivity).
    reflexivity.
  - rewrite bind_emit, sys_exit_run.
    cbn [after trace_of world_of outcome_of fst snd render_thread set_stopped].
    exact Hstate.
Qed.


(** ** The main loop and [execute] *)

Lemma bind_never_normal {A B} (c : M A) (k : A -> M B) w :
  (forall a w' b, outcome_of (k a w') <> Normal b) ->
  forall b, outcome_of (bind c k w) <> Normal b.
Proof.
  intros Hk b. unfold bind.
  destruct (c w) as [[t1 w1] [a | e |]]; [| discriminate | discriminate].
  specialize (Hk a w1 b). destruct (k a w1) as [[t2 w2] o]. exact Hk.
Qed.

Lemma game_loop_never_returns fuel (ticks : nat) w :
  forall b, outcome_of (game_loop fuel ticks w) <> Normal b.
Proof.
  revert w. induction ticks as [| ticks IH]; intros w b; [discriminate |].
  cbn [game_loop].
  apply bind_never_normal. intros _ w1 b1.
  apply bind_never_normal. intros _ w2 b2.
  apply bind_never_normal. intros _ w3 b3. apply IH.
Qed.

(** With nothing pending and no controller the loop just ticks on. *)
Lemma game_loop_idle fuel (ticks : nat) w :
  event_queue w = [] -> game_controller w = None ->
  game_loop fuel ticks w = (repeat (a_clock_tick 60) ticks, w, Diverged).
Proof.
  intros Hq Hc. induction ticks as [| ticks IH]; [reflexivity |].
  cbn [game_loop].
  assert (Hrest : (process_events fuel ;; execute_game_logic ;;
                   game_loop fuel ticks) w
                  = (repeat (a_clock_tick 60) ticks, w, Diverged)).
  { unfold process_events, event_get. mrun. rewrite Hq. mrun.
    cbn [for_each]. mrun.
    unfold execute_game_logic. mrun. rewrite Hc. mrun. exact IH. }
  rewrite bind_emit, Hrest. reflexivity.
Qed.

Lemma init_gui_run w gj :
  getitem_str (settings_json w) "gui" = inr gj ->
  init_gui w = ([], set_gui_interface (Some (GuiInterface_init gj)) w, Normal tt).
Proof.
  intros Hgui. unfold init_gui. mrun. rewrite Hgui. cbn [lift]. mrun.
  reflexivity.
Qed.

Lemma start_render_thread_run w :
  render_thread w = Unstarted ->
  start_render_thread w =
  ([a_thread_start], set_render_thread (Running AtCheck) w, Normal tt).
Proof.
  intros Hth. unfold start_render_thread, Thread_start. mrun. rewrite Hth.
  reflexivity.
Qed.

(** C9.  [execute] is [init_game], then [start_render_thread], then
    [run_game_loop], each started in the world the one before left and only
    if that one returned: its trace is theirs in this order, and an
    exception of [init_game] ends it there.  [init_game] stores a new GUI
    interface, with the [gui] settings and no element, and then calls the
    subclass hook [build_game_objects].  [run_game_loop] never returns
    normally, and neither does [execute]: they loop on or leave by an
    exception. *)
Theorem execute_chain fuel w :
  (forall gj, getitem_str (settings_json w) "gui" = inr gj ->
     init_game w =
     after (a_call h_build_game_objects)
       (build_game_objects
          (set_gui_interface (Some {| gui_json := gj; gui_list := [] |}) w))) /\
  (outcome_of (init_game w) = Normal tt ->
   render_thread (world_of (init_game w)) = Unstarted ->
   execute fuel w =
   (trace_of (init_game w) ++ [a_thread_start] ++
      trace_of (run_game_loop fuel
        (set_render_thread (Running AtCheck) (world_of (init_game w)))),
    world_of (run_game_loop fuel
        (set_render_thread (Running AtCheck) (world_of (init_game w)))),
    outcome_of (run_game_loop fuel
        (set_render_thread (Running AtCheck) (world_of (init_game w)))))) /\
  (forall e, outcome_of (init_game w) = Raised e -> execute fuel w = init_game w) /\
  (forall b, outcome_of (run_game_loop fuel w) <> Normal b) /\
  (forall b, outcome_of (execute fuel w) <> Normal b).
Proof.
  repeat apply conj.
  - intros gj Hgui. unfold init_game.
    rewrite (bind_normal _ _ _ _ _ _ (init_gui_run w gj Hgui)).
    rewrite call_run. reflexivity.
  - intros Hinit Hth. unfold execute, bind.
    destruct (init_game w) as [[t1 w1] o1].
    cbn [trace_of world_of outcome_of fst snd] in Hinit, Hth |- *. subst o1.
    rewrite (start_render_thread_run w1 Hth).
    destruct (run_game_loop fuel (set_render_thread (Running AtCheck) w1))
      as [[t3 w3] o3].
    cbn [trace_of world_of outcome_of fst snd]. reflexivity.
  - intros e Hinit. unfold execute, bind.
    destruct (init_game w) as [[t1 w1] o1]. cbn in Hinit. subst o1.
    reflexivity.
  - intros b. apply game_loop_never_returns.
  - intros b. unfold execute.
    apply bind_never_normal. intros _ w1 b1.
    apply bind_never_normal. intros _ w2 b2.
    apply game_loop_never_returns.
Qed.

End ShellFacts.

(** * Further properties of the code *)

Section ShellMore.

Context {consts : PygameConsts} {guilib : GuiLib} {ctl : Controller}.
Context {attrs : Type} {sub : Subclass (attrs := attrs)}.

Abbreviation world := (world (attrs := attrs)).
Abbreviation M := (M (attrs := attrs)).
Abbreviation allocated := (allocated (attrs := attrs)).
Abbreviation tracks := (tracks (attrs := attrs)).
Abbreviation gui_wf := (gui_wf (attrs := attrs)).
Abbreviation all_live := (all_live (attrs := attrs)).

Implicit Types (w : world) (ev : event) (fuel : nat) (exp : ref -> bool).

Notation "x <- c ;; k" := (bind c (fun x => k))
  (at level 100, c at next level, right associativity).
Notation "c ;; k" := (bind c (fun _ => k))
  (at level 100, right associativity).

Ltac mrun :=
  repeat first
    [ rewrite bind_assoc | rewrite bind_modify | rewrite bind_get
    | rewrite bind_ret | rewrite bind_raise ].

(** ** The render pass as a function of the list *)

Lemma list_remove_middle (g : ref) (pre rest : list ref) :
  g ∉ pre -> list_remove g (pre ++ g :: rest) = Some (pre ++ rest).
Proof.
  induction pre as [| y pre IH]; intros Hnot; cbn [app list_remove].
  - rewrite Nat.eqb_refl. reflexivity.
  - apply not_elem_of_cons in Hnot as [Hne Hnot].
    destruct (Nat.eqb_spec y g) as [-> | _]; [congruence |].
    rewrite (IH Hnot). reflexivity.
Qed.

(** The loop from index [length pre] on, with the elements still to come
    distinct from each other and from the ones passed. *)
Lemma render_iter_sweep exp fuel (pre suf : list ref) w gui :
  steady_widgets ->
  gui_interface w = Some gui -> gui_list gui = pre ++ suf ->
  NoDup (pre ++ suf) ->
  (forall g, g ∈ suf -> exists x, heap w !! g = Some x /\ is_expired x = exp g) ->
  (length suf < fuel)%nat ->
  trace_of (render_iter fuel (length pre) w) = fst (sweep exp suf) /\
  outcome_of (render_iter fuel (length pre) w) = Normal tt /\
  element_list (world_of (render_iter fuel (length pre) w)) = pre ++ snd (sweep exp suf) /\
  (forall g, g ∉ suf ->
     heap (world_of (render_iter fuel (length pre) w)) !! g = heap w !! g) /\
  (forall g, g ∈ suf ->
     exists x, heap (world_of (render_iter fuel (length pre) w)) !! g = Some x /\
               is_expired x = exp g).
Proof.
  intros Hsteady. revert pre suf w gui.
  induction fuel as [| fuel IH]; intros pre suf w gui Hgui Hlist Hnodup Hexp Hfuel;
    [lia |].
  rewrite render_iter_step, Hgui, Hlist.
  destruct suf as [| g rest].
  { rewrite lookup_ge_None_2 by (rewrite length_app; cbn; lia).
    cbn [trace_of world_of outcome_of fst snd sweep].
    unfold element_list. rewrite Hgui, Hlist.
    repeat split. intros g Hg. inversion Hg. }
  rewrite list_lookup_middle by reflexivity.
  apply NoDup_app in Hnodup as (Hnd_pre & Hdisj & Hnd_suf).
  apply NoDup_cons in Hnd_suf as (Hg_rest & Hnd_rest).
  assert (Hg_pre : g ∉ pre) by (intros Hin; apply (Hdisj g Hin); left).
  destruct (Hexp g) as (x & Hx & Hex); [left |].
  rewrite Hx. cbn [sweep]. rewrite <- Hex.
  destruct (is_expired x) eqn:Hisx.
  - rewrite (list_remove_middle g pre rest Hg_pre).
    cbn [after trace_of world_of outcome_of fst snd].
    destruct rest as [| h rest'].
    + destruct fuel as [| fuel]; [cbn in Hfuel; lia |].
      assert (Hrec : render_iter (S fuel) (S (length pre))
                       (with_gui_list gui (pre ++ []) w)
                     = ([], with_gui_list gui (pre ++ []) w, Normal tt)).
      { rewrite render_iter_step. unfold with_gui_list at 1.
        cbn [gui_interface set_gui_interface gui_list].
        rewrite lookup_ge_None_2 by (rewrite app_nil_r; lia). reflexivity. }
      rewrite Hrec. cbn [trace_of world_of outcome_of fst snd].
      unfold element_list, with_gui_list. cbn.
      repeat split.
      intros g' Hg'. apply list_elem_of_singleton in Hg' as ->.
      exists x. split; [assumption | congruence].
    + apply NoDup_cons in Hnd_rest as (Hh_rest & Hnd_rest').
      destruct (IH (pre ++ [h]) rest' (with_gui_list gui (pre ++ h :: rest') w)
                  {| gui_json := gui_json gui; gui_list := pre ++ h :: rest' |})
        as (Ht & Ho & Hl & Hframe & Htrack).
      * reflexivity.
      * cbn. rewrite <- app_assoc. reflexivity.
      * rewrite <- app_assoc. cbn [app]. apply NoDup_app. repeat split.
        -- exact Hnd_pre.
        -- intros y Hy Hin. apply (Hdisj y Hy). right. exact Hin.
        -- apply NoDup_cons. split; assumption.
      * intros g' Hg'. apply Hexp. right. right. exact Hg'.
      * cbn [length] in Hfuel. lia.
      * replace (S (length pre)) with (length (pre ++ [h]))
          by (rewrite length_app; cbn; lia).
        rewrite Ht, Ho, Hl. rewrite <- app_assoc. repeat split.
        -- intros g' Hg'. rewrite Hframe; [reflexivity |].
           intros Hin. apply Hg'. right. right. exact Hin.
        -- intros g' Hg'.
           apply elem_of_cons in Hg' as [-> | Hg'].
           { rewrite Hframe by (intros Hin; apply Hg_rest; right; exact Hin).
             exists x. split; [assumption | congruence]. }
           apply elem_of_cons in Hg' as [-> | Hg'].
           { rewrite Hframe by exact Hh_rest. apply Hexp. right. left. }
           apply Htrack. exact Hg'.
  - destruct (Hsteady x Hisx) as (Hok & Hex').
    rewrite Hok. cbn [after trace_of world_of outcome_of fst snd].
    destruct (IH (pre ++ [g]) rest (with_widget g (fst (widget_render x)) w) gui)
      as (Ht & Ho & Hl & Hframe & Htrack).
    + exact Hgui.
    + rewrite Hlist, <- app_assoc. reflexivity.
    + rewrite <- app_assoc. cbn [app]. apply NoDup_app. repeat split.
      * exact Hnd_pre.
      * exact Hdisj.
      * apply NoDup_cons. split; assumption.
    + intros g' Hg'. unfold with_widget. cbn [heap set_heap].
      rewrite lookup_insert_ne by (intros ->; contradiction).
      apply Hexp. right. exact Hg'.
    + cbn [length] in Hfuel. lia.
    + replace (S (length pre)) with (length (pre ++ [g]))
        by (rewrite length_app; cbn; lia).
      rewrite Ht, Ho, Hl. rewrite <- app_assoc. repeat split.
      * intros g' Hg'. rewrite Hframe.
        -- unfold with_widget. cbn [heap set_heap].
           apply lookup_insert_ne. intros ->. apply Hg'. left.
        -- intros Hin. apply Hg'. right. exact Hin.
      * intros g' Hg'. apply elem_of_cons in Hg' as [-> | Hg'].
        -- rewrite Hframe by exact Hg_rest. unfold with_widget.
           cbn [heap set_heap]. rewrite lookup_insert_eq.
           eexists. split; [reflexivity | congruence].
        -- apply Htrack. exact Hg'.
Qed.

Lemma render_iter_keeps_gui fuel (i : nat) w gui :
  gui_interface w = Some gui ->
  exists l,
    gui_interface (world_of (render_iter fuel i w)) =
    Some {| gui_json := gui_json gui; gui_list := l |}.
Proof.
  revert i w gui. induction fuel as [| fuel IH]; intros i w gui Hgui.
  { exists (gui_list gui). cbn. rewrite Hgui. destruct gui; reflexivity. }
  rewrite render_iter_step, Hgui.
  assert (Hsame : exists l, gui_interface w =
                    Some {| gui_json := gui_json gui; gui_list := l |}).
  { exists (gui_list gui). rewrite Hgui. destruct gui; reflexivity. }
  destruct (gui_list gui !! i) as [g |]; [| exact Hsame].
  destruct (heap w !! g) as [x |]; [| exact Hsame].
  destruct (is_expired x).
  - destruct (list_remove g (gui_list gui)) as [l |]; [| exact Hsame].
    cbn [after world_of fst snd].
    apply (IH (S i) (with_gui_list gui l w)
              {| gui_json := gui_json gui; gui_list := l |}).
    reflexivity.
  - destruct (snd (widget_render x)); [exact Hsame |].
    cbn [after world_of fst snd]. apply IH. exact Hgui.
Qed.

(** Lists two elements at a time, as [sweep] takes them. *)
Lemma list_pair_ind {A} (P : list A -> Prop) :
  P [] -> (forall x, P [x]) ->
  (forall x y l, P l -> P (y :: l) -> P (x :: y :: l)) ->
  forall l, P l.
Proof.
  intros Hnil Hone Hstep l.
  assert (H : P l /\ forall x, P (x :: l)); [| exact (proj1 H)].
  induction l as [| y l [IHl IHcons]].
  - split; [exact Hnil | exact Hone].
  - split; [apply IHcons |]. intros x. apply Hstep; [exact IHl | apply IHcons].
Qed.

Lemma sweep_live exp (l : list ref) :
  live_of exp (snd (sweep exp l)) = live_of exp l.
Proof.
  unfold live_of. induction l as [| g | g h l IHl IHcons] using list_pair_ind.
  - reflexivity.
  - cbn [sweep]. destruct (exp g) eqn:Hg; cbn [snd List.filter]; rewrite Hg;
      reflexivity.
  - cbn [sweep]. destruct (exp g) eqn:Hg.
    + cbn [snd List.filter]. rewrite Hg. cbn [negb]. rewrite IHl. reflexivity.
    + cbn [snd List.filter]. rewrite Hg. cbn [negb]. f_equal. exact IHcons.
Qed.

Lemma sweep_expired_count exp (l : list ref) :
  (expired_count exp (snd (sweep exp l)) <= expired_count exp l)%nat /\
  (0 < expired_count exp l ->
   expired_count exp (snd (sweep exp l)) < expired_count exp l)%nat.
Proof.
  unfold expired_count. induction l as [| g | g h l IHl IHcons] using list_pair_ind.
  - cbn. lia.
  - cbn [sweep]. destruct (exp g) eqn:Hg; cbn [snd List.filter]; rewrite Hg;
      cbn [length]; lia.
  - cbn [sweep]. destruct (exp g) eqn:Hg.
    + cbn [snd List.filter]. rewrite Hg. destruct (exp h); cbn [length]; lia.
    + cbn [snd List.filter]. rewrite Hg. exact IHcons.
Qed.

Lemma sweep_none_expired exp (l : list ref) :
  expired_count exp l = 0%nat ->
  sweep exp l = (map a_widget_render l, l) /\ live_of exp l = l.
Proof.
  unfold expired_count, live_of. induction l as [| g l IH]; [split; reflexivity |].
  cbn [List.filter sweep map]. destruct (exp g); cbn [length negb]; [lia |].
  intros Hcount. destruct (IH Hcount) as (-> & ->). split; reflexivity.
Qed.

Lemma sweeps_enough exp (n : nat) (l : list ref) :
  (expired_count exp l <= n)%nat -> sweeps exp n l = live_of exp l.
Proof.
  revert l. induction n as [| n IH]; intros l Hn.
  - cbn [sweeps]. symmetry. apply sweep_none_expired. lia.
  - cbn [sweeps]. destruct (sweep_expired_count exp l) as (Hle & Hlt).
    rewrite IH, sweep_live; [reflexivity |].
    destruct (expired_count exp l); lia.
Qed.

Lemma allocated_tracks w : allocated w -> tracks (expired_in w) w.
Proof.
  intros Halloc g Hg. destruct (Halloc g Hg) as (x & Hx).
  exists x. split; [exact Hx |]. unfold expired_in. rewrite Hx. reflexivity.
Qed.

Lemma GuiInterface_render_sweep exp w gui :
  steady_widgets -> gui_interface w = Some gui -> NoDup (gui_list gui) ->
  tracks exp w ->
  GuiInterface_render w =
  (fst (sweep exp (gui_list gui)),
   world_of (GuiInterface_render w), Normal tt) /\
  gui_interface (world_of (GuiInterface_render w)) =
    Some {| gui_json := gui_json gui; gui_list := snd (sweep exp (gui_list gui)) |} /\
  tracks exp (world_of (GuiInterface_render w)).
Proof.
  intros Hsteady Hgui Hnodup Htracks. rewrite GuiInterface_render_run, Hgui.
  assert (Htr : forall g, g ∈ gui_list gui ->
            exists x, heap w !! g = Some x /\ is_expired x = exp g).
  { intros g Hg. apply Htracks. unfold element_list. rewrite Hgui. exact Hg. }
  destruct (render_iter_sweep exp (S (length (gui_list gui))) [] (gui_list gui)
              w gui Hsteady Hgui eq_refl Hnodup Htr (Nat.lt_succ_diag_r _))
    as (Ht & Ho & Hl & _ & Htrack).
  destruct (render_iter_keeps_gui (S (length (gui_list gui))) 0 w gui Hgui)
    as (l & Hl').
  cbn [length app] in *.
  assert (l = snd (sweep exp (gui_list gui))) as ->.
  { unfold element_list in Hl. rewrite Hl' in Hl. exact Hl. }
  split; [| split].
  - rewrite (run_eta (render_iter _ _ _)) at 1. rewrite Ht, Ho. reflexivity.
  - exact Hl'.
  - intros g Hg. apply Htrack. unfold element_list in Hg. rewrite Hl' in Hg.
    cbn in Hg.
    assert (Hsub : sublist (snd (sweep exp (gui_list gui))) (gui_list gui)).
    { pose proof (render_iter_sublist (S (length (gui_list gui))) 0 w) as Hs.
      unfold element_list in Hs. rewrite Hl', Hgui in Hs. exact Hs. }
    eapply elem_of_sublist; eassumption.
Qed.

Lemma passes_sweeps exp (n : nat) w gui :
  steady_widgets -> gui_interface w = Some gui -> NoDup (gui_list gui) ->
  tracks exp w ->
  outcome_of (passes n w) = Normal tt /\
  element_list (world_of (passes n w)) = sweeps exp n (gui_list gui).
Proof.
  intros Hsteady. revert w gui.
  induction n as [| n IH]; intros w gui Hgui Hnodup Htracks.
  { cbn. unfold element_list. rewrite Hgui. split; reflexivity. }
  destruct (GuiInterface_render_sweep exp w gui Hsteady Hgui Hnodup Htracks)
    as (Hrun & Hgui' & Htracks').
  cbn [passes sweeps]. rewrite (bind_normal _ _ _ _ _ _ Hrun).
  cbn [trace_of world_of outcome_of fst snd].
  apply (IH _ _ Hgui'); [| exact Htracks'].
  cbn [gui_list].
  destruct (GuiInterface_render_pass w) as (_ & Hsub & _).
  unfold element_list in Hsub. rewrite Hgui', Hgui in Hsub. cbn in Hsub.
  eapply sublist_NoDup; eassumption.
Qed.

(** X1.  On a list of distinct widgets whose [render] returns and does not
    expire them, one pass of [GuiInterface.render] is [sweep]: from the
    front, an element that is not expired is drawn and kept, an expired
    element is removed with the print, and the element right behind a
    removed one is kept without being looked at, expired or not.  The pass
    returns normally. *)
Theorem render_pass_is_sweep w gui :
  steady_widgets -> gui_interface w = Some gui -> NoDup (gui_list gui) ->
  allocated w ->
  trace_of (GuiInterface_render w) = fst (sweep (expired_in w) (gui_list gui)) /\
  outcome_of (GuiInterface_render w) = Normal tt /\
  element_list (world_of (GuiInterface_render w)) =
    snd (sweep (expired_in w) (gui_list gui)).
Proof.
  intros Hsteady Hgui Hnodup Halloc.
  destruct (GuiInterface_render_sweep (expired_in w) w gui Hsteady Hgui Hnodup
              (allocated_tracks w Halloc)) as (Hrun & Hgui' & _).
  rewrite Hrun. cbn [trace_of world_of outcome_of fst snd].
  unfold element_list. rewrite Hgui'. repeat split.
Qed.

(** X2.  Under the same conditions a pass never removes an element that is
    not expired: the elements that are not expired are the same, in the same
    order, after the pass as before; and the pass leaves at least one
    expired element fewer when there was one. *)
Theorem render_pass_keeps_live w gui :
  steady_widgets -> gui_interface w = Some gui -> NoDup (gui_list gui) ->
  allocated w ->
  live_of (expired_in w) (element_list (world_of (GuiInterface_render w))) =
    live_of (expired_in w) (gui_list gui) /\
  (0 < expired_count (expired_in w) (gui_list gui) ->
   expired_count (expired_in w) (element_list (world_of (GuiInterface_render w)))
   < expired_count (expired_in w) (gui_list gui))%nat.
Proof.
  intros Hsteady Hgui Hnodup Halloc.
  destruct (GuiInterface_render_sweep (expired_in w) w gui Hsteady Hgui Hnodup
              (allocated_tracks w Halloc)) as (_ & Hgui' & _).
  unfold element_list. rewrite Hgui'. cbn [gui_list]. split.
  - apply sweep_live.
  - apply sweep_expired_count.
Qed.

(** X3.  Under the same conditions, as many passes as there are expired
    elements (or more) all return normally and leave exactly the elements
    that are not expired, in their order: every expired element is removed
    in the end, although a single pass may leave some. *)
Theorem passes_clear_expired (n : nat) w gui :
  steady_widgets -> gui_interface w = Some gui -> NoDup (gui_list gui) ->
  allocated w ->
  (expired_count (expired_in w) (gui_list gui) <= n)%nat ->
  outcome_of (passes n w) = Normal tt /\
  element_list (world_of (passes n w)) = live_of (expired_in w) (gui_list gui).
Proof.
  intros Hsteady Hgui Hnodup Halloc Hn.
  destruct (passes_sweeps (expired_in w) n w gui Hsteady Hgui Hnodup
              (allocated_tracks w Halloc)) as (Ho & Hl).
  split; [exact Ho |]. rewrite Hl. apply sweeps_enough. exact Hn.
Qed.

(** ** Adding elements *)

Lemma show_label_run (text : string) w gui style :
  gui_interface w = Some gui ->
  getitem_str (gui_json gui) "notification_label" = inr style ->
  show_label text w =
  ([], with_gui_list gui (gui_list gui ++ [next_ref w])
         (set_heap (<[next_ref w := Title style text]> (heap w)) (S (next_ref w)) w),
   Normal tt).
Proof.
  intros Hgui Hstyle. unfold show_label, the_gui. mrun. rewrite Hgui. mrun.
  rewrite Hstyle. cbn [lift]. unfold new_widget. mrun.
  unfold set_gui_list, modify.
  cbn [gui_interface set_heap]. rewrite Hgui. reflexivity.
Qed.

Lemma show_button_run (text : string) (cb : callback) w gui style :
  gui_interface w = Some gui ->
  getitem_str (gui_json gui) "done_button" = inr style ->
  show_button text cb w =
  ([], with_gui_list gui (gui_list gui ++ [next_ref w])
         (set_heap (<[next_ref w := Button style cb text]> (heap w)) (S (next_ref w)) w),
   Normal tt).
Proof.
  intros Hgui Hstyle. unfold show_button, the_gui. mrun. rewrite Hgui. mrun.
  rewrite Hstyle. cbn [lift]. unfold new_widget. mrun.
  unfold set_gui_list, modify.
  cbn [gui_interface set_heap]. rewrite Hgui. reflexivity.
Qed.

Lemma show_label_fails (text : string) w :
  (exists gui style, gui_interface w = Some gui /\
     getitem_str (gui_json gui) "notification_label" = inr style) \/
  (exists e, show_label text w = ([], w, Raised e)).
Proof.
  destruct (gui_interface w) as [gui |] eqn:Hgui.
  - destruct (getitem_str (gui_json gui) "notification_label") as [e | style] eqn:Hs.
    + right. exists e. unfold show_label, the_gui. mrun. rewrite Hgui. mrun.
      rewrite Hs. reflexivity.
    + left. exists gui, style. split; [reflexivity | exact Hs].
  - right. eexists. unfold show_label, the_gui. mrun. rewrite Hgui. reflexivity.
Qed.

Lemma show_button_fails (text : string) (cb : callback) w :
  (exists gui style, gui_interface w = Some gui /\
     getitem_str (gui_json gui) "done_button" = inr style) \/
  (exists e, show_button text cb w = ([], w, Raised e)).
Proof.
  destruct (gui_interface w) as [gui |] eqn:Hgui.
  - destruct (getitem_str (gui_json gui) "done_button") as [e | style] eqn:Hs.
    + right. exists e. unfold show_button, the_gui. mrun. rewrite Hgui. mrun.
      rewrite Hs. reflexivity.
    + left. exists gui, style. split; [reflexivity | exact Hs].
  - right. eexists. unfold show_button, the_gui. mrun. rewrite Hgui. reflexivity.
Qed.

(** Appending a newly made widget keeps the elements distinct and in the
    heap. *)
Lemma append_fresh_wf w gui (x : widget) :
  gui_interface w = Some gui -> gui_wf w ->
  gui_wf (with_gui_list gui (gui_list gui ++ [next_ref w])
            (set_heap (<[next_ref w := x]> (heap w)) (S (next_ref w)) w)).
Proof.
  intros Hgui (Hnodup & Halloc & Hbound).
  unfold gui_wf, allocated, element_list in *. rewrite Hgui in *.
  cbn [with_gui_list gui_interface set_gui_interface set_heap gui_list heap next_ref].
  assert (Hfresh : next_ref w ∉ gui_list gui).
  { intros Hin. specialize (Hbound _ (Halloc _ Hin)). lia. }
  split; [| split].
  - apply NoDup_app. split; [exact Hnodup |]. split.
    + intros g Hg Hin. apply list_elem_of_singleton in Hin as ->. contradiction.
    + apply NoDup_singleton.
  - intros g [Hg | Hg]%elem_of_app.
    + rewrite lookup_insert_ne by (intros <-; contradiction). apply Halloc, Hg.
    + apply list_elem_of_singleton in Hg as ->. rewrite lookup_insert_eq. eauto.
  - intros g Hg. destruct (decide (next_ref w = g)) as [<- | Hne]; [lia |].
    rewrite lookup_insert_ne in Hg by exact Hne. specialize (Hbound g Hg). lia.
Qed.

Lemma render_iter_heap_dom fuel (i : nat) w (g0 : ref) :
  is_Some (heap (world_of (render_iter fuel i w)) !! g0) <-> is_Some (heap w !! g0).
Proof.
  revert i w. induction fuel as [| fuel IH]; intros i w; [reflexivity |].
  rewrite render_iter_step.
  destruct (gui_interface w) as [gui |]; [| reflexivity].
  destruct (gui_list gui !! i) as [g |]; [| reflexivity].
  destruct (heap w !! g) as [x |] eqn:Hx; [| reflexivity].
  assert (Hins : forall y, is_Some (heap (with_widget g y w) !! g0)
                           <-> is_Some (heap w !! g0)).
  { intros y. unfold with_widget. cbn [heap set_heap].
    destruct (decide (g = g0)) as [<- | Hne].
    - rewrite lookup_insert_eq, Hx. split; eauto.
    - rewrite lookup_insert_ne by exact Hne. reflexivity. }
  destruct (is_expired x).
  - destruct (list_remove g (gui_list gui)) as [l |]; [| reflexivity].
    cbn [after world_of fst snd]. rewrite IH. reflexivity.
  - destruct (snd (widget_render x)); cbn [after world_of fst snd].
    + apply Hins.
    + rewrite IH. apply Hins.
Qed.

Lemma render_keeps_wf w : gui_wf w -> gui_wf (world_of (GuiInterface_render w)).
Proof.
  intros (Hnodup & Halloc & Hbound).
  destruct (GuiInterface_render_pass w) as (_ & Hsub & _).
  rewrite GuiInterface_render_run in *.
  destruct (gui_interface w) as [gui |] eqn:Hgui;
    [| split; [| split]; assumption].
  destruct (render_iter_frame (S (length (gui_list gui))) 0 w) as (Hshell & _ & _).
  apply (f_equal next_ref) in Hshell.
  cbn [next_ref shell_of set_heap set_gui_interface set_game_controller] in Hshell.
  split; [| split].
  - eapply sublist_NoDup; eassumption.
  - intros g Hg. apply render_iter_heap_dom. apply Halloc.
    eapply elem_of_sublist; eassumption.
  - intros g Hg. apply render_iter_heap_dom in Hg. rewrite Hshell.
    apply Hbound, Hg.
Qed.

(** X4.  The operations of the GUI interface keep its elements distinct
    objects: if the elements are distinct widgets of the heap (and the heap
    holds nothing at or above the next reference), they still are after
    [show_label], [show_button], [hide_button], a render pass, and
    [init_gui], whether these return or raise. *)
Theorem gui_operations_keep_wf w (text : string) (cb : callback) :
  gui_wf w ->
  gui_wf (world_of (show_label text w)) /\
  gui_wf (world_of (show_button text cb w)) /\
  gui_wf (world_of (hide_button w)) /\
  gui_wf (world_of (GuiInterface_render w)) /\
  gui_wf (world_of (init_gui w)).
Proof.
  intros Hwf. split; [| split; [| split; [| split]]].
  - destruct (show_label_fails text w) as [(gui & style & Hgui & Hs) | (e & ->)];
      [| exact Hwf].
    rewrite (show_label_run text w gui style Hgui Hs).
    apply append_fresh_wf; assumption.
  - destruct (show_button_fails text cb w) as [(gui & style & Hgui & Hs) | (e & ->)];
      [| exact Hwf].
    rewrite (show_button_run text cb w gui style Hgui Hs).
    apply append_fresh_wf; assumption.
  - exact Hwf.
  - apply render_keeps_wf. exact Hwf.
  - destruct Hwf as (Hnodup & Halloc & Hbound). unfold init_gui. mrun.
    destruct (getitem_str (settings_json w) "gui") as [e | gj]; cbn [lift]; mrun.
    + split; [| split]; assumption.
    + split; [| split].
      * apply NoDup_nil_2.
      * intros g Hg. inversion Hg.
      * exact Hbound.
Qed.

(** X5.  A label that is shown is drawn: on a well-formed GUI interface
    with the [notification_label] style, none of whose elements is expired,
    and with widgets whose [render] returns and does not expire them,
    [show_label] returns normally and the next render pass draws the old
    elements in order and then the new label, which is the last element. *)
Theorem shown_label_is_drawn (text : string) w gui style :
  steady_widgets -> gui_wf w -> all_live w ->
  gui_interface w = Some gui ->
  getitem_str (gui_json gui) "notification_label" = inr style ->
  is_expired (Title style text) = false ->
  outcome_of (show_label text w) = Normal tt /\
  element_list (world_of (show_label text w)) = gui_list gui ++ [next_ref w] /\
  trace_of (GuiInterface_render (world_of (show_label text w))) =
    map a_widget_render (gui_list gui ++ [next_ref w]) /\
  outcome_of (GuiInterface_render (world_of (show_label text w))) = Normal tt.
Proof.
  intros Hsteady (Hnodup & Halloc & Hbound) Hlive Hgui Hstyle Hnew.
  rewrite (show_label_run text w gui style Hgui Hstyle).
  cbn [trace_of world_of outcome_of fst snd].
  set (w' := with_gui_list gui _ _).
  assert (Hfresh : next_ref w ∉ gui_list gui).
  { intros Hin. unfold allocated, element_list in Halloc. rewrite Hgui in Halloc.
    specialize (Hbound _ (Halloc _ Hin)). lia. }
  assert (Hlive' : all_live w').
  { intros g Hg. unfold element_list in Hg. cbn in Hg.
    apply in_app_or in Hg as [Hg | [<- | []]].
    - unfold w', with_gui_list. cbn [heap set_gui_interface set_heap].
      rewrite lookup_insert_ne.
      + apply Hlive. unfold element_list. rewrite Hgui. exact Hg.
      + intros <-. apply Hfresh. apply list_elem_of_In. exact Hg.
    - unfold w', with_gui_list. cbn [heap set_gui_interface set_heap].
      rewrite lookup_insert_eq. eexists. split; [reflexivity | exact Hnew]. }
  destruct (GuiInterface_render_all_live w' _ Hsteady eq_refl Hlive')
    as (Ht & Ho & _).
  repeat split; assumption.
Qed.

(** X6.  [show_label] and [show_button] either add their widget or change
    nothing: on a GUI interface whose settings lack the style they look up
    ([notification_label], [done_button]) they raise, [KeyError] of that key
    when the GUI settings are an object, and without a GUI interface they
    raise [AttributeError]; in both cases no widget is made and the world is
    as before. *)
Theorem show_without_style_changes_nothing (text : string) (cb : callback) w :
  (gui_interface w = None ->
   show_label text w = ([], w, Raised (AttributeError "show_label")) /\
   show_button text cb w = ([], w, Raised (AttributeError "show_button"))) /\
  (forall gui items, gui_interface w = Some gui -> gui_json gui = PDict items ->
   (dict_get items "notification_label" = None ->
    show_label text w = ([], w, Raised (KeyError (PStr "notification_label")))) /\
   (dict_get items "done_button" = None ->
    show_button text cb w = ([], w, Raised (KeyError (PStr "done_button"))))).
Proof.
  split.
  - intros Hgui. unfold show_label, show_button, the_gui. mrun. rewrite Hgui.
    split; reflexivity.
  - intros gui items Hgui Hjson. unfold show_label, show_button, the_gui. mrun.
    rewrite Hgui. mrun. rewrite Hjson. cbn [getitem_str].
    split; intros ->; reflexivity.
Qed.

(** ** [GameApp.render] and the render thread, further *)

(** X7.  [GameApp.render] writes nothing but the heap, the element list and
    the game controller: the stop flag, the thread state, the window
    properties, the settings, the pending events and the next reference are
    as before, whether it returns or raises; it makes only drawing calls
    (the rectangle, the controller's [render_objects], widget renders and
    the removal print), and it always comes to an end. *)
Theorem render_writes_only_drawing_state w :
  stopped (world_of (GameApp_render w)) = stopped w /\
  render_thread (world_of (GameApp_render w)) = render_thread w /\
  title (world_of (GameApp_render w)) = title w /\
  background_color (world_of (GameApp_render w)) = background_color w /\
  size (world_of (GameApp_render w)) = size w /\
  screen (world_of (GameApp_render w)) = screen w /\
  settings_json (world_of (GameApp_render w)) = settings_json w /\
  event_queue (world_of (GameApp_render w)) = event_queue w /\
  next_ref (world_of (GameApp_render w)) = next_ref w /\
  forallb is_drawing (trace_of (GameApp_render w)) = true /\
  outcome_of (GameApp_render w) <> Diverged.
Proof.
  destruct (drawing_only_render w) as (Hs & Ht & Hend).
  repeat apply conj; try assumption.
  - exact (f_equal stopped Hs).
  - exact (f_equal render_thread Hs).
  - exact (f_equal title Hs).
  - exact (f_equal background_color Hs).
  - exact (f_equal size Hs).
  - exact (f_equal screen Hs).
  - exact (f_equal settings_json Hs).
  - exact (f_equal event_queue Hs).
  - exact (f_equal next_ref Hs).
Qed.

Lemma draw_background_fails w e :
  getitem_int (size w) 0 = inl e \/
  (exists W, getitem_int (size w) 0 = inr W /\ getitem_int (size w) 1 = inl e) ->
  GameApp_render w = ([], w, Raised e).
Proof.
  intros Hbad. unfold GameApp_render. apply bind_raised.
  unfold draw_background. mrun.
  destruct Hbad as [H0 | (W & H0 & H1)]; rewrite H0; cbn [lift]; mrun;
    [reflexivity |].
  rewrite H1. reflexivity.
Qed.

(** X8.  [GameApp.render] needs a size with two items: when [size] is still
    [None], or a list with fewer than two items, it raises ([TypeError] for
    [None], [IndexError] for a short list) before it has drawn anything, and
    the world is as before.  A render thread started on such an application
    ends in its first iteration, right after the tick. *)
Theorem render_needs_two_dimensions w :
  (size w = PNone -> GameApp_render w = ([], w, Raised TypeError)) /\
  (size w = PList [] -> GameApp_render w = ([], w, Raised IndexError)) /\
  (forall W, size w = PList [W] -> GameApp_render w = ([], w, Raised IndexError)) /\
  (forall fuel e, stopped w = false -> GameApp_render w = ([], w, Raised e) ->
     as_thread (RenderThread_run (S fuel)) w =
     ([a_clock_tick 300; a_thread_end (Some e)],
      set_render_thread Finished w, Normal tt)).
Proof.
  repeat apply conj.
  - intros Hsize. apply draw_background_fails. left. rewrite Hsize. reflexivity.
  - intros Hsize. apply draw_background_fails. left. rewrite Hsize. reflexivity.
  - intros W Hsize. apply draw_background_fails. right. exists W.
    rewrite Hsize. split; reflexivity.
  - intros fuel e Hst Hrender. unfold as_thread. cbn [RenderThread_run].
    mrun. rewrite Hst. unfold render_iteration. rewrite bind_assoc, bind_emit.
    rewrite bind_assoc. rewrite (bind_raised _ _ _ _ _ _ Hrender). reflexivity.
Qed.


Lemma render_iteration_spec w :
  shell_of (world_of (render_iteration w)) = shell_of w /\
  match outcome_of (render_iteration w) with
  | Normal _ => frames (trace_of (render_iteration w)) = 1%nat
  | Raised _ => frames (trace_of (render_iteration w)) = 0%nat
  | Diverged => False
  end.
Proof.
  unfold render_iteration. rewrite bind_emit.
  cbn [trace_of world_of outcome_of fst snd].
  destruct (drawing_only_render w) as (Hs & Ht & Hend). unfold bind.
  destruct (GameApp_render w) as [[t w'] [[] | e |]];
    cbn [trace_of world_of outcome_of fst snd emit] in *.
  - split; [exact Hs |].
    change (a_clock_tick 300 :: t ++ [a_display_flip])
      with ([a_clock_tick 300] ++ t ++ [a_display_flip]).
    rewrite !frames_app, (frames_drawing t Ht). reflexivity.
  - split; [exact Hs |].
    change (a_clock_tick 300 :: t) with ([a_clock_tick 300] ++ t).
    rewrite frames_app, (frames_drawing t Ht). reflexivity.
  - congruence.
Qed.

(** X10.  The render loop never stops by itself: started with the stop flag
    clear and with nobody else to set it, [RenderThread.run] leaves the flag
    clear and does not return normally; as long as nothing raises it
    presents one frame per iteration, and an exception ends it before the
    frame of that iteration is presented. *)
Theorem render_thread_never_stops_itself fuel w :
  stopped w = false ->
  stopped (world_of (RenderThread_run fuel w)) = false /\
  match outcome_of (RenderThread_run fuel w) with
  | Normal _ => False
  | Raised _ => (frames (trace_of (RenderThread_run fuel w)) < fuel)%nat
  | Diverged => frames (trace_of (RenderThread_run fuel w)) = fuel
  end.
Proof.
  revert w. induction fuel as [| fuel IH]; intros w Hst.
  { split; [exact Hst | reflexivity]. }
  cbn [RenderThread_run]. rewrite bind_get, Hst.
  destruct (render_iteration_spec w) as (Hs & Hit).
  apply (f_equal stopped) in Hs.
  cbn [stopped shell_of set_heap set_gui_interface set_game_controller] in Hs.
  unfold bind.
  destruct (render_iteration w) as [[t w'] [[] | e |]];
    cbn [trace_of world_of outcome_of fst snd] in *.
  - rewrite Hst in Hs. destruct (IH w' Hs) as (Hst' & Hrest).
    destruct (RenderThread_run fuel w') as [[t2 w2] [[] | e |]];
      cbn [trace_of world_of outcome_of fst snd] in *.
    + contradiction.
    + split; [exact Hst' |]. rewrite frames_app. lia.
    + split; [exact Hst' |]. rewrite frames_app. lia.
  - split; [congruence | lia].
  - contradiction.
Qed.

(** ** Construction, further *)

Variable json_load : string -> exn + pyval.

Lemma GameApp_init_to_hook path text items win T C S w :
  files w !! path = Some text ->
  json_load text = inr (PDict items) ->
  dict_get items "window" = Some (PDict win) ->
  dict_get win "title" = Some T ->
  dict_get win "background_color" = Some C ->
  dict_get win "size" = Some S ->
  GameApp_init json_load path w =
  bind (call h_load_game_settings_from_json load_game_settings_from_json)
       (fun _ => open_window)
       (set_size S (set_background_color C (set_title T (loaded (PDict items) w)))).
Proof.
  intros Hfile Hload Hwin HT HC HS.
  rewrite (GameApp_init_loaded _ _ _ _ _ Hfile Hload).
  unfold load_settings_from_json. mrun.
  rewrite (bind_window_setting "title" items win T); try assumption;
    [| reflexivity].
  mrun.
  rewrite (bind_window_setting "background_color" items win C); try assumption;
    [| reflexivity].
  mrun.
  rewrite (bind_window_setting "size" items win S); try assumption;
    [| reflexivity].
  mrun. reflexivity.
Qed.


(** X12.  An exception of the hook [load_game_settings_from_json] ends the
    construction: the constructor raises it, having called the hook and
    nothing after it (pygame is not started, no window is opened). *)
Theorem constructor_hook_failure path text items win T C S e w :
  files w !! path = Some text ->
  json_load text = inr (PDict items) ->
  dict_get items "window" = Some (PDict win) ->
  dict_get win "title" = Some T ->
  dict_get win "background_color" = Some C ->
  dict_get win "size" = Some S ->
  outcome_of (load_game_settings_from_json
    (set_size S (set_background_color C (set_title T (loaded (PDict items) w)))))
    = Raised e ->
  GameApp_init json_load path w =
  (a_call h_load_game_settings_from_json ::
     trace_of (load_game_settings_from_json
       (set_size S (set_background_color C (set_title T (loaded (PDict items) w))))),
   world_of (load_game_settings_from_json
       (set_size S (set_background_color C (set_title T (loaded (PDict items) w))))),
   Raised e).
Proof.
  intros Hfile Hload Hwin HT HC HS Hhook.
  rewrite (GameApp_init_to_hook _ _ _ _ _ _ _ _ Hfile Hload Hwin HT HC HS).
  apply bind_raised. rewrite call_run, Hhook. reflexivity.
Qed.

Lemma window_setting_missing key items win w :
  settings_json w = PDict items -> dict_get items "window" = Some (PDict win) ->
  dict_get win key = None ->
  window_setting key w = ([], w, Raised (KeyError (PStr key))).
Proof.
  intros Hjs Hwin Hkey.
  rewrite (window_setting_found key items (PDict win) w Hjs Hwin).
  cbn [getitem_str]. rewrite Hkey. reflexivity.
Qed.

(** X13.  A [window] object that lacks one of [title],
    [background_color], [size] makes the constructor raise the [KeyError] of
    the first one missing, in this order, before the subclass hook or pygame
    is called; a [window] entry that is no object makes it raise
    [TypeError]. *)
Theorem incomplete_window_fails path text items w :
  files w !! path = Some text ->
  json_load text = inr (PDict items) ->
  (forall win, dict_get items "window" = Some (PDict win) ->
     (dict_get win "title" = None ->
      outcome_of (GameApp_init json_load path w) = Raised (KeyError (PStr "title")) /\
      trace_of (GameApp_init json_load path w) = []) /\
     (forall T, dict_get win "title" = Some T ->
      dict_get win "background_color" = None ->
      outcome_of (GameApp_init json_load path w)
        = Raised (KeyError (PStr "background_color")) /\
      trace_of (GameApp_init json_load path w) = []) /\
     (forall T C, dict_get win "title" = Some T ->
      dict_get win "background_color" = Some C ->
      dict_get win "size" = None ->
      outcome_of (GameApp_init json_load path w) = Raised (KeyError (PStr "size")) /\
      trace_of (GameApp_init json_load path w) = [])) /\
  (forall v, dict_get items "window" = Some v ->
     (forall win, v <> PDict win) ->
     outcome_of (GameApp_init json_load path w) = Raised TypeError /\
     trace_of (GameApp_init json_load path w) = []).
Proof.
  intros Hfile Hload. rewrite (GameApp_init_loaded _ _ _ _ _ Hfile Hload).
  unfold load_settings_from_json. split.
  - intros win Hwin. split; [| split].
    + intros HT. mrun.
      erewrite bind_raised;
        [| apply (window_setting_missing "title" items win); auto].
      split; reflexivity.
    + intros T HT HC. mrun.
      rewrite (bind_window_setting "title" items win T); try assumption;
        [| reflexivity].
      mrun.
      erewrite bind_raised;
        [| apply (window_setting_missing "background_color" items win); auto].
      split; reflexivity.
    + intros T C HT HC HS. mrun.
      rewrite (bind_window_setting "title" items win T); try assumption;
        [| reflexivity].
      mrun.
      rewrite (bind_window_setting "background_color" items win C);
        try assumption; [| reflexivity].
      mrun.
      erewrite bind_raised;
        [| apply (window_setting_missing "size" items win); auto].
      split; reflexivity.
  - intros v Hwin Hnot. mrun.
    assert (Hrun : window_setting "title" (loaded (PDict items) w)
                   = ([], loaded (PDict items) w, Raised TypeError)).
    { unfold window_setting. mrun. cbn [settings_json loaded set_settings_json].
      cbn [getitem_str]. rewrite Hwin. cbn [lift]. mrun.
      destruct v; try reflexivity. exfalso. eapply Hnot. reflexivity. }
    rewrite (bind_raised _ _ _ _ _ _ Hrun). split; reflexivity.
Qed.

(** ** Initialisation, events and the main loop, further *)

(** X14.  Without a [gui] entry in the settings nothing is started:
    [init_game] raises before it calls [build_game_objects], and [execute]
    raises the same exception without starting the render thread or entering
    the main loop; the world is as before.  For settings that are an object
    the exception is [KeyError('gui')]. *)
Theorem no_gui_settings_nothing_started fuel w :
  has_key (settings_json w) "gui" = false ->
  exists e,
    init_game w = ([], w, Raised e) /\
    execute fuel w = ([], w, Raised e) /\
    (forall items, settings_json w = PDict items -> e = KeyError (PStr "gui")).
Proof.
  intros Hno.
  assert (Hgui : exists e, init_gui w = ([], w, Raised e) /\
            forall items, settings_json w = PDict items -> e = KeyError (PStr "gui")).
  { unfold init_gui. mrun.
    destruct (settings_json w) as [| b | z | m x | s0 | l | items] eqn:Hjs;
      try (exists TypeError; split; [reflexivity | discriminate]).
    cbn [has_key getitem_str] in *.
    destruct (dict_get items "gui"); [discriminate |].
    exists (KeyError (PStr "gui")). split; reflexivity. }
  destruct Hgui as (e & Hrun & He). exists e.
  assert (Hinit : init_game w = ([], w, Raised e)).
  { unfold init_game. apply bind_raised. exact Hrun. }
  split; [exact Hinit |]. split; [| exact He].
  unfold execute. apply bind_raised. exact Hinit.
Qed.

Lemma bind_skip {A B} (c : M A) (k k' : A -> M B) w :
  (forall a, outcome_of (c w) <> Normal a) -> bind c k w = bind c k' w.
Proof.
  intros Hc. unfold bind.
  destruct (c w) as [[t1 w1] [a | e |]]; try reflexivity.
  exfalso. apply (Hc a). reflexivity.
Qed.

Lemma process_event_quit_never_returns fuel ev w :
  type ev = QUIT -> forall b, outcome_of (process_event fuel ev w) <> Normal b.
Proof.
  intros Hev b. unfold process_event. rewrite Hev, Z.eqb_refl.
  apply bind_never_normal. intros _ w1 b1.
  apply bind_never_normal. intros _ w2 b2.
  apply bind_never_normal. intros _ w3 b3. discriminate.
Qed.

(** X15.  A quit event ends the processing of its batch: the events behind
    it in what [pygame.event.get()] returned are never handled, and the loop
    over the batch does not return normally, whatever the state of the
    render thread. *)
Theorem quit_ends_the_batch fuel ev (pre post : list event) w :
  type ev = QUIT ->
  for_each (pre ++ ev :: post) (process_event fuel) w =
  for_each (pre ++ [ev]) (process_event fuel) w /\
  forall b, outcome_of (for_each (pre ++ ev :: post) (process_event fuel) w)
            <> Normal b.
Proof.
  intros Hev. split.
  - rewrite !for_each_app. apply bind_ext. intros _ w'. cbn [for_each].
    apply bind_skip. intros a. apply process_event_quit_never_returns. exact Hev.
  - intros b. rewrite for_each_app. apply bind_never_normal. intros _ w' b'.
    cbn [for_each]. unfold bind.
    pose proof (process_event_quit_never_returns fuel ev w' Hev) as Hq.
    destruct (process_event fuel ev w') as [[t1 w1] [[] | e |]];
      [| discriminate | discriminate].
    exfalso. apply (Hq tt). reflexivity.
Qed.

Lemma for_each_others fuel (evs : list event) w :
  Forall other_event evs ->
  for_each evs (process_event fuel) w = ([], w, Normal tt).
Proof.
  induction 1 as [| ev evs Hev _ IH]; [reflexivity |].
  cbn [for_each]. rewrite (bind_normal _ _ _ _ _ _ (process_event_other fuel ev w Hev)).
  rewrite IH. reflexivity.
Qed.

(** One iteration of the main loop up to the handling of the events, when
    the batch holds nothing the loop reacts to. *)
Lemma quiet_tick_run fuel w :
  Forall (Forall other_event) (event_queue w) ->
  exists w1,
    process_events fuel w = ([], w1, Normal tt) /\
    event_queue w1 = tail (event_queue w) /\
    game_controller w1 = game_controller w.
Proof.
  intros Hq. unfold process_events, event_get. mrun.
  destruct (event_queue w) as [| evs q] eqn:Hqueue.
  - mrun. exists w. cbn [for_each]. rewrite Hqueue. repeat split.
  - mrun. inversion Hq as [| ? ? Hevs Hrest]; subst.
    rewrite for_each_others by exact Hevs.
    eexists. split; [reflexivity |]. split; reflexivity.
Qed.

Lemma controller_after_S (n : nat) (c : controller) :
  controller_after (S n) c = controller_after n (fst (execute_game c)).
Proof.
  unfold controller_after.
  exact (Nat.iter_succ_r n (fun c' => fst (execute_game c')) c).
Qed.

(** One such iteration leaves the render thread as it found it. *)
Lemma quiet_tick_thread fuel w :
  Forall (Forall other_event) (event_queue w) ->
  exists w1,
    process_events fuel w = ([], w1, Normal tt) /\
    event_queue w1 = tail (event_queue w) /\
    game_controller w1 = game_controller w /\
    render_thread w1 = render_thread w.
Proof.
  intros Hq. unfold process_events, event_get. mrun.
  destruct (event_queue w) as [| evs q] eqn:Hqueue.
  - mrun. exists w. cbn [for_each]. rewrite Hqueue. repeat split.
  - mrun. inversion Hq as [| ? ? Hevs Hrest]; subst.
    rewrite for_each_others by exact Hevs.
    eexists. split; [reflexivity |]. repeat split.
Qed.

(** X16.  While no render thread is running (it has not been started, or it
    has ended), the main loop executes the game logic once per iteration:
    over [n] iterations in which only events the loop does not react to
    arrive and [execute_game] does not raise, it makes [n] times the tick
    and the call of [execute_game], the controller is the one [n] calls
    leave, one batch of events is consumed per iteration, and the loop is
    still running. *)
Theorem game_logic_once_per_tick fuel (n : nat) w ctrl :
  (forall pc, render_thread w <> Running pc) ->
  game_controller w = Some ctrl ->
  Forall (Forall other_event) (event_queue w) ->
  (forall k, (k < n)%nat -> snd (execute_game (controller_after k ctrl)) = None) ->
  trace_of (game_loop fuel n w) = quiet_ticks n /\
  outcome_of (game_loop fuel n w) = Diverged /\
  game_controller (world_of (game_loop fuel n w)) = Some (controller_after n ctrl) /\
  event_queue (world_of (game_loop fuel n w)) = drop n (event_queue w) /\
  render_thread (world_of (game_loop fuel n w)) = render_thread w.
Proof.
  revert w ctrl. induction n as [| n IH]; intros w ctrl Hidle Hctrl Hq Hok.
  { cbn. rewrite drop_0. repeat split. exact Hctrl. }
  cbn [game_loop quiet_ticks]. rewrite bind_emit.
  destruct (quiet_tick_thread fuel w Hq) as (w1 & Hrun & Hq1 & Hc1 & Hth1).
  rewrite (bind_normal _ _ _ _ _ _ Hrun).
  assert (Hlogic : execute_game_logic w1 =
            ([a_call h_execute_game],
             set_game_controller (Some (fst (execute_game ctrl))) w1, Normal tt)).
  { unfold execute_game_logic. mrun. rewrite Hc1, Hctrl. rewrite bind_emit. mrun.
    assert (H0 : snd (execute_game ctrl) = None) by (apply (Hok 0%nat); lia).
    rewrite H0. reflexivity. }
  rewrite (bind_normal _ _ _ _ _ _ Hlogic).
  cbn [trace_of world_of outcome_of fst snd app].
  destruct (IH (set_game_controller (Some (fst (execute_game ctrl))) w1)
              (fst (execute_game ctrl))) as (Ht & Ho & Hc & He & Hth).
  - cbn [render_thread set_game_controller]. rewrite Hth1. exact Hidle.
  - reflexivity.
  - cbn [event_queue set_game_controller]. rewrite Hq1.
    destruct (event_queue w) as [| evs q]; [constructor |].
    inversion Hq; assumption.
  - intros k Hk. rewrite <- controller_after_S. apply Hok. lia.
  - rewrite Ht, Ho, Hc, He, Hth.
    cbn [event_queue render_thread set_game_controller].
    rewrite Hq1, Hth1, controller_after_S.
    split; [reflexivity |]. split; [reflexivity |]. split; [reflexivity |].
    split; [| reflexivity].
    destruct (event_queue w); [cbn [tail]; rewrite !drop_nil |]; reflexivity.
Qed.

(** X17.  An exception of the controller's [execute_game] ends the main
    loop in that iteration: [run_game_loop] raises it after the tick and the
    one call, with no further iteration. *)
Theorem game_logic_failure_ends_loop fuel (ticks : nat) w ctrl e :
  game_controller w = Some ctrl ->
  Forall (Forall other_event) (event_queue w) ->
  snd (execute_game ctrl) = Some e ->
  trace_of (game_loop fuel (S ticks) w) = [a_clock_tick 60; a_call h_execute_game] /\
  outcome_of (game_loop fuel (S ticks) w) = Raised e /\
  game_controller (world_of (game_loop fuel (S ticks) w))
    = Some (fst (execute_game ctrl)).
Proof.
  intros Hctrl Hq Hraise. cbn [game_loop]. rewrite bind_emit.
  destruct (quiet_tick_run fuel w Hq) as (w1 & Hrun & Hq1 & Hc1).
  rewrite (bind_normal _ _ _ _ _ _ Hrun).
  assert (Hlogic : execute_game_logic w1 =
            ([a_call h_execute_game],
             set_game_controller (Some (fst (execute_game ctrl))) w1, Raised e)).
  { unfold execute_game_logic. mrun. rewrite Hc1, Hctrl. rewrite bind_emit. mrun.
    rewrite Hraise. reflexivity. }
  rewrite (bind_raised _ _ _ _ _ _ Hlogic). repeat split.
Qed.

Lemma drawing_is_thread_call (t : list action) :
  forallb is_drawing t = true -> forallb is_render_thread_call t = true.
Proof.
  induction t as [| a t IH]; [reflexivity |]. cbn [forallb].
  intros [Ha Ht]%andb_prop. rewrite (IH Ht). unfold is_render_thread_call.
  rewrite Ha. reflexivity.
Qed.

Lemma rest_of_iteration_calls (pc : render_pc) w :
  forallb is_render_thread_call (trace_of (rest_of_iteration pc w)) = true.
Proof.
  assert (Hflip : forallb is_render_thread_call
                    (trace_of ((GameApp_render ;; emit a_display_flip) w)) = true).
  { destruct (drawing_only_render w) as (_ & Ht & _). unfold bind.
    apply drawing_is_thread_call in Ht.
    destruct (GameApp_render w) as [[t w'] [[] | e |]];
      cbn [trace_of fst emit] in *; [| exact Ht | exact Ht].
    rewrite forallb_app, Ht. reflexivity. }
  destruct pc; cbn [rest_of_iteration]; try reflexivity.
  - unfold render_iteration. rewrite bind_emit. cbn [trace_of fst forallb].
    rewrite Hflip. reflexivity.
  - exact Hflip.
Qed.

Lemma process_event_quit_run fuel ev w :
  type ev = QUIT -> render_thread w <> Unstarted ->
  exists during w',
    process_event (S fuel) ev w =
    (a_store_stopped true :: a_thread_join :: during ++ [a_sys_exit], w',
     Raised SystemExit) /\
    forallb is_render_thread_call during = true /\
    stopped w' = true /\ render_thread w' = Finished /\
    event_queue w' = event_queue w.
Proof.
  intros Hev Hth. unfold process_event. rewrite Hev, Z.eqb_refl.
  rewrite bind_emit. mrun. unfold Thread_join. mrun.
  cbn [render_thread set_stopped].
  destruct (render_thread w) as [| pc |] eqn:Hstate; [congruence | |].
  - rewrite bind_assoc, bind_emit.
    erewrite bind_normal by (apply thread_winds_down; reflexivity).
    rewrite sys_exit_run. cbn [trace_of world_of outcome_of fst snd].
    destruct (rest_of_iteration_spec pc (set_stopped true w)) as (Hs & _ & _).
    eexists _, _. split; [reflexivity |]. repeat split.
    + rewrite forallb_app, rest_of_iteration_calls. reflexivity.
    + cbn [stopped set_render_thread]. exact (f_equal stopped Hs).
    + cbn [event_queue set_render_thread]. exact (f_equal event_queue Hs).
  - rewrite bind_emit, sys_exit_run. cbn [trace_of world_of outcome_of fst snd].
    exists [], (set_stopped true w). repeat split. exact Hstate.
Qed.

(** X18.  A quit event ends the main loop: when it arrives behind events
    the loop does not react to, on an application whose render thread has
    been started, [run_game_loop] leaves by [SystemExit] in that iteration.
    After the tick it stores the flag, joins, and exits; what happens in
    between are calls of the render thread only.  The game logic is not
    executed again, and the events behind the quit event stay unhandled. *)
Theorem quit_ends_the_loop fuel (ticks : nat) w (pre post : list event) ev q :
  event_queue w = (pre ++ ev :: post) :: q ->
  Forall other_event pre -> type ev = QUIT ->
  render_thread w <> Unstarted ->
  (exists during,
     trace_of (game_loop (S fuel) (S ticks) w) =
       a_clock_tick 60 :: a_store_stopped true :: a_thread_join ::
       during ++ [a_sys_exit] /\
     forallb is_render_thread_call during = true) /\
  ~ In (a_call h_execute_game) (trace_of (game_loop (S fuel) (S ticks) w)) /\
  outcome_of (game_loop (S fuel) (S ticks) w) = Raised SystemExit /\
  stopped (world_of (game_loop (S fuel) (S ticks) w)) = true /\
  render_thread (world_of (game_loop (S fuel) (S ticks) w)) = Finished /\
  event_queue (world_of (game_loop (S fuel) (S ticks) w)) = q.
Proof.
  intros Hqueue Hpre Hev Hth.
  destruct (process_event_quit_run fuel ev (set_event_queue q w) Hev Hth)
    as (during & w' & Hrun & Hcalls & Hst & Hfin & Hq').
  assert (Hloop : game_loop (S fuel) (S ticks) w =
            (a_clock_tick 60 :: a_store_stopped true :: a_thread_join ::
             during ++ [a_sys_exit], w', Raised SystemExit)).
  { cbn [game_loop]. rewrite bind_emit.
    erewrite bind_raised; [reflexivity |].
    unfold process_events, event_get. mrun. rewrite Hqueue. mrun.
    rewrite for_each_app.
    rewrite (bind_normal _ _ _ _ _ _ (for_each_others (S fuel) pre _ Hpre)).
    cbn [for_each]. rewrite (bind_raised _ _ _ _ _ _ Hrun). reflexivity. }
  rewrite Hloop. cbn [trace_of world_of outcome_of fst snd].
  split; [exists during; split; [reflexivity | exact Hcalls] |].
  split; [| repeat split; assumption].
  intros [Hin | [Hin | [Hin | Hin]]]; try discriminate.
  apply in_app_or in Hin as [Hin | [Hin | []]]; [| discriminate].
  pose proof (proj1 (forallb_forall _ _) Hcalls _ Hin) as Hbad. discriminate.
Qed.

(** X19.  When the main loop is run on an application whose render thread
    was never started, a quit event does not reach [sys.exit]: the flag is
    stored, [join] raises [RuntimeError], and that exception ends
    [run_game_loop]. *)
Theorem quit_before_start_ends_loop fuel (ticks : nat) w
    (pre post : list event) ev q :
  event_queue w = (pre ++ ev :: post) :: q ->
  Forall other_event pre -> type ev = QUIT ->
  render_thread w = Unstarted ->
  game_loop fuel (S ticks) w =
  ([a_clock_tick 60; a_store_stopped true],
   set_stopped true (set_event_queue q w),
   Raised (RuntimeError "cannot join thread before it is started")).
Proof.
  intros Hqueue Hpre Hev Hth. cbn [game_loop]. rewrite bind_emit.
  erewrite bind_raised; [reflexivity |].
  unfold process_events, event_get. mrun. rewrite Hqueue. mrun.
  rewrite for_each_app.
  rewrite (bind_normal _ _ _ _ _ _ (for_each_others fuel pre _ Hpre)).
  cbn [for_each].
  rewrite (bind_raised _ _ _ _ _ _
             (quit_before_start fuel ev (set_event_queue q w) Hev Hth)).
  reflexivity.
Qed.

(** X20.  [execute] on an application whose render thread has been started
    already (running or ended) initialises the game again and then fails:
    [start] raises [RuntimeError], and the main loop is not entered. *)
Theorem execute_after_start_fails fuel w :
  outcome_of (init_game w) = Normal tt ->
  render_thread (world_of (init_game w)) <> Unstarted ->
  execute fuel w =
  (trace_of (init_game w), world_of (init_game w),
   Raised (RuntimeError "threads can only be started once")).
Proof.
  intros Hinit Hth. unfold execute, bind.
  destruct (init_game w) as [[t1 w1] o1].
  cbn [trace_of world_of outcome_of fst snd] in *. subst o1.
  unfold start_render_thread, Thread_start, bind, get.
  destruct (render_thread w1); [congruence | |]; cbn; rewrite app_nil_r;
    reflexivity.
Qed.

(** ** [GuiInterface.check_mouse] *)

Variable mouse_get_pos : M (Z * Z).
Variable g_check_mouse : ref -> Z * Z -> bool -> M unit.

Lemma bind_ext_at {A B} (c : M A) (k k' : A -> M B) w :
  (forall a, k a (world_of (c w)) = k' a (world_of (c w))) ->
  bind c k w = bind c k' w.
Proof.
  intros Hk. unfold bind.
  destruct (c w) as [[t1 w1] [a | e |]]; try reflexivity.
  cbn [world_of fst snd] in Hk. rewrite Hk. reflexivity.
Qed.

Lemma check_one_keeps_gui (down : bool) (g : ref) :
  keeps_gui mouse_get_pos ->
  (forall g' pos d, keeps_gui (g_check_mouse g' pos d)) ->
  keeps_gui (check_one mouse_get_pos g_check_mouse down g).
Proof.
  intros Hpos Hcheck w. unfold check_one, bind.
  specialize (Hpos w).
  destruct (mouse_get_pos w) as [[t1 w1] [pos | e |]];
    cbn [world_of fst snd] in *; try exact Hpos.
  specialize (Hcheck g pos down w1).
  destruct (g_check_mouse g pos down w1) as [[t2 w2] o].
  cbn [world_of fst snd] in *. congruence.
Qed.

Lemma check_mouse_iter_for_each fuel (pre suf : list ref) (down : bool) w gui :
  keeps_gui mouse_get_pos ->
  (forall g pos d, keeps_gui (g_check_mouse g pos d)) ->
  gui_interface w = Some gui -> gui_list gui = pre ++ suf ->
  (length suf < fuel)%nat ->
  check_mouse_iter mouse_get_pos g_check_mouse fuel (length pre) down w =
  for_each suf (check_one mouse_get_pos g_check_mouse down) w.
Proof.
  intros Hpos Hcheck. revert pre suf w.
  induction fuel as [| fuel IH]; intros pre suf w Hgui Hlist Hfuel; [lia |].
  cbn [check_mouse_iter]. unfold the_gui. mrun. rewrite Hgui. mrun.
  rewrite Hlist. destruct suf as [| g rest].
  - rewrite lookup_ge_None_2 by (rewrite app_nil_r; lia). reflexivity.
  - rewrite list_lookup_middle by reflexivity. cbn [for_each].
    apply bind_ext_at. intros _.
    replace (S (length pre)) with (length (pre ++ [g]))
      by (rewrite length_app; cbn; lia).
    apply IH.
    + rewrite (check_one_keeps_gui down g Hpos Hcheck w). exact Hgui.
    + rewrite Hlist, <- app_assoc. reflexivity.
    + cbn [length] in Hfuel. lia.
Qed.

(** X21.  When neither reading the pointer nor the widgets' handlers change
    the GUI interface, [check_mouse] asks every element of the list once, in
    list order: for each it reads the pointer position anew and passes it on
    with the same [down] flag; it stops at the first handler that raises.
    Without a GUI interface it raises [AttributeError]. *)
Theorem check_mouse_asks_each_element fuel (down : bool) w :
  keeps_gui mouse_get_pos ->
  (forall g pos d, keeps_gui (g_check_mouse g pos d)) ->
  (forall gui, gui_interface w = Some gui ->
     (length (gui_list gui) < fuel)%nat ->
     check_mouse mouse_get_pos g_check_mouse fuel down w =
     for_each (gui_list gui) (check_one mouse_get_pos g_check_mouse down) w) /\
  (gui_interface w = None ->
   check_mouse mouse_get_pos g_check_mouse (S fuel) down w =
   ([], w, Raised (AttributeError "check_mouse"))).
Proof.
  intros Hpos Hcheck. split.
  - intros gui Hgui Hfuel.
    apply (check_mouse_iter_for_each fuel [] (gui_list gui) down w gui);
      auto.
  - intros Hgui. unfold check_mouse. cbn [check_mouse_iter]. unfold the_gui.
    mrun. rewrite Hgui. reflexivity.
Qed.

End ShellMore.

(** * The event-processing step and the render loop *)

Section ShellSteps.

Context {consts : PygameConsts} {guilib : GuiLib} {ctl : Controller}.
Context {attrs : Type} {sub : Subclass (attrs := attrs)}.

Abbreviation world := (world (attrs := attrs)).
Abbreviation M := (M (attrs := attrs)).

Implicit Types (w : world) (ev : event) (fuel : nat).

Notation "x <- c ;; k" := (bind c (fun x => k))
  (at level 100, c at next level, right associativity).
Notation "c ;; k" := (bind c (fun _ => k))
  (at level 100, right associativity).

Ltac mrun :=
  repeat first
    [ rewrite bind_assoc | rewrite bind_modify | rewrite bind_get
    | rewrite bind_ret | rewrite bind_raise ].

(** [process_events] on a batch: the events in front are handled, then the
    one in the middle and the ones behind. *)
Lemma process_events_batch fuel w (pre post : list event) ev q :
  event_queue w = (pre ++ ev :: post) :: q ->
  process_events fuel w =
  bind (for_each pre (process_event fuel)) (fun _ =>
    bind (process_event fuel ev) (fun _ =>
      for_each post (process_event fuel))) (set_event_queue q w).
Proof.
  intros Hqueue. unfold process_events, event_get. mrun. rewrite Hqueue. mrun.
  rewrite for_each_app. reflexivity.
Qed.

Lemma bind_stops {A} (c : M A) (k : A -> M A) w :
  (forall a, outcome_of (c w) <> Normal a) -> bind c k w = c w.
Proof.
  intros Hc. unfold bind.
  destruct (c w) as [[t1 w1] [a | e |]]; try reflexivity.
  exfalso. apply (Hc a). reflexivity.
Qed.

(** C2.  When [process_events] comes to a quit event of the batch that
    [pygame.event.get()] returned (the events in front of it handled, with
    trace [t0], leaving the world [w1]) and the render thread has been
    started by then, it does this and only this more, in this order: it
    stores [True] in the stop flag, joins the render thread, and calls
    [sys.exit], which leaves by [SystemExit] instead of returning.  While it
    waits in [join] the render thread does no more than finish the iteration
    it was in (at most one more frame is presented) and ends; a thread that
    had ended already does nothing.  The loop of [run] tests the flag before
    it renders: started with the flag set it returns at once. *)
Theorem quit_sequence fuel w (pre post : list event) ev q t0 w1 :
  event_queue w = (pre ++ ev :: post) :: q ->
  type ev = QUIT ->
  for_each pre (process_event (S fuel)) (set_event_queue q w) = (t0, w1, Normal tt) ->
  render_thread w1 <> Unstarted ->
  (exists during,
     trace_of (process_events (S fuel) w) =
       t0 ++ a_store_stopped true :: a_thread_join :: during ++ [a_sys_exit] /\
     (frames during <= 1)%nat /\
     (forall pc, render_thread w1 = Running pc ->
        exists e,
          during =
          trace_of (rest_of_iteration pc (set_stopped true w1)) ++ [a_thread_end e]) /\
     (render_thread w1 = Finished -> during = [])) /\
  outcome_of (process_events (S fuel) w) = Raised SystemExit /\
  stopped (world_of (process_events (S fuel) w)) = true /\
  render_thread (world_of (process_events (S fuel) w)) = Finished /\
  (forall n w', stopped w' = true -> RenderThread_run (S n) w' = ([], w', Normal tt)).
Proof.
  intros Hqueue Hev Hpre Hth.
  destruct (process_event_quit fuel ev w1 Hev Hth)
    as ((during & Ht & Hf & Hrun & Hfin) & Ho & Hs & Hth' & Hloop).
  assert (Hstep : process_events (S fuel) w =
            (t0 ++ trace_of (process_event (S fuel) ev w1),
             world_of (process_event (S fuel) ev w1),
             outcome_of (process_event (S fuel) ev w1))).
  { rewrite (process_events_batch _ _ _ _ _ _ Hqueue).
    rewrite (bind_normal _ _ _ _ _ _ Hpre).
    rewrite bind_stops; [reflexivity |].
    intros a. rewrite Ho. discriminate. }
  rewrite Hstep. cbn [trace_of world_of outcome_of fst snd].
  split; [| split; [exact Ho | split; [exact Hs | split; [exact Hth' | exact Hloop]]]].
  exists during. rewrite Ht. repeat split; assumption.
Qed.



End ShellSteps.

(** * The embedding at work on the concrete game *)

Import Demo.

(** C1.  The render pass does not draw every element that is not expired.
    On the list [[g0, g1]] with [g0] expired and [g1] not, the pass removes
    [g0] and ends without a call of [g1.render()]: the removal moves [g1] to
    index 0 while the list iterator goes on to index 1.  On a list of two
    expired elements the second one is still in the list after the pass; a
    second pass removes it. *)
Theorem render_skips_after_removal :
  is_expired live = false /\
  GuiInterface_render (showing [0; 1]%nat [(0%nat, gone); (1%nat, live)]) =
  ([a_print "removing g from gui_list"],
   showing [1%nat] [(0%nat, gone); (1%nat, live)],
   Normal tt) /\
  ~ In (a_widget_render 1%nat)
       (trace_of (GuiInterface_render
                    (showing [0; 1]%nat [(0%nat, gone); (1%nat, live)]))) /\
  element_list (world_of (GuiInterface_render
                  (showing [0; 1]%nat [(0%nat, gone); (1%nat, gone)]))) = [1%nat] /\
  element_list (world_of (passes 2
                  (showing [0; 1]%nat [(0%nat, gone); (1%nat, gone)]))) = [].
Proof.
  split; [reflexivity |]. split; [vm_compute; reflexivity |].
  split; [vm_compute; intros [H | []]; discriminate H |].
  split; vm_compute; reflexivity.
Qed.



Lemma missing_window_fails_witness :
  files blank !! "empty.json" = Some "{}" /\
  json_load "{}" = inr (PDict []) /\
  has_key (PDict []) "window" = false /\
  exists e,
    outcome_of (GameApp_init json_load "empty.json" blank) = Raised e /\
    trace_of (GameApp_init json_load "empty.json" blank) = [] /\
    screen (world_of (GameApp_init json_load "empty.json" blank)) = screen blank /\
    (forall items, PDict [] = PDict items -> e = KeyError (PStr "window")).
Proof.
  assert (Hfile : files blank !! "empty.json" = Some "{}")
    by (vm_compute; reflexivity).
  split; [exact Hfile |]. split; [reflexivity |]. split; [reflexivity |].
  exact (missing_window_fails json_load "empty.json" "{}" (PDict []) blank
           Hfile eq_refl eq_refl).
Defined.

Lemma startup_failures_witness :
  outcome_of (GameApp_init json_load "null.json" blank) = Raised not_loaded /\
  outcome_of (GameApp_init json_load "nowhere.json" blank)
    = Raised (IOError "nowhere.json") /\
  outcome_of (GameApp_init json_load "broken.json" blank)
    = Raised (ValueError ["No JSON object could be decoded"]).
Proof.
  assert (Hnull : files blank !! "null.json" = Some "null")
    by (vm_compute; reflexivity).
  assert (Hnowhere : files blank !! "nowhere.json" = None)
    by (vm_compute; reflexivity).
  assert (Hbroken : files blank !! "broken.json" = Some "{")
    by (vm_compute; reflexivity).
  split; [| split].
  - exact (proj1 (proj1 (startup_failures json_load "null.json" blank)
                    "null" Hnull eq_refl)).
  - exact (proj1 (proj1 (proj2 (startup_failures json_load "nowhere.json" blank))
                    Hnowhere)).
  - exact (proj1 (proj2 (proj2 (startup_failures json_load "broken.json" blank))
                    "{" _ Hbroken eq_refl)).
Defined.

Lemma execute_chain_witness :
  outcome_of (init_game playing) = Normal tt /\
  trace_of (execute 2 (set_render_thread Unstarted playing)) =
  [a_call h_build_game_objects; a_thread_start;
   a_clock_tick 60; a_call h_execute_game;
   a_clock_tick 60; a_call h_execute_game] /\
  outcome_of (execute 2 (set_render_thread Unstarted playing)) = Diverged.
Proof.
  split; [vm_compute; reflexivity |].
  pose proof (execute_chain 2 (set_render_thread Unstarted playing))
    as (_ & Hchain & _).
  rewrite Hchain; vm_compute; repeat split; reflexivity.
Defined.

(** ** Witnesses of the further properties *)

Lemma labels_steady : steady_widgets (guilib := labels).
Proof. intros x Hx. split; [reflexivity | exact Hx]. Qed.

Lemma crowd_allocated : allocated crowd.
Proof.
  intros g Hg. unfold element_list in Hg. cbn in Hg.
  repeat (apply elem_of_cons in Hg as [-> | Hg]; [vm_compute; eauto |]).
  inversion Hg.
Qed.

Lemma crowd_distinct : NoDup [0; 1; 2; 3]%nat.
Proof. apply (bool_decide_unpack _). vm_compute. exact I. Qed.

Lemma render_pass_is_sweep_witness :
  steady_widgets (guilib := labels) /\ NoDup [0; 1; 2; 3]%nat /\ allocated crowd /\
  trace_of (GuiInterface_render crowd) =
    [a_print "removing g from gui_list"; a_widget_render 2%nat;
     a_print "removing g from gui_list"] /\
  element_list (world_of (GuiInterface_render crowd)) = [1; 2]%nat.
Proof.
  split; [exact labels_steady |]. split; [exact crowd_distinct |].
  split; [exact crowd_allocated |].
  pose proof (render_pass_is_sweep crowd _ labels_steady eq_refl crowd_distinct
                crowd_allocated) as (Ht & _ & Hl).
  rewrite Ht, Hl. split; vm_compute; reflexivity.
Defined.

Lemma render_pass_keeps_live_witness :
  steady_widgets (guilib := labels) /\ NoDup [0; 1; 2; 3]%nat /\ allocated crowd /\
  live_of (expired_in crowd) (element_list (world_of (GuiInterface_render crowd)))
    = [2%nat] /\
  (expired_count (expired_in crowd)
     (element_list (world_of (GuiInterface_render crowd))) < 3)%nat.
Proof.
  split; [exact labels_steady |]. split; [exact crowd_distinct |].
  split; [exact crowd_allocated |].
  pose proof (render_pass_keeps_live crowd _ labels_steady eq_refl crowd_distinct
                crowd_allocated) as (Hlive & Hless).
  split; [rewrite Hlive; vm_compute; reflexivity |].
  apply Hless. vm_compute. lia.
Defined.

Lemma passes_clear_expired_witness :
  steady_widgets (guilib := labels) /\ NoDup [0; 1; 2; 3]%nat /\ allocated crowd /\
  (expired_count (expired_in crowd) [0; 1; 2; 3]%nat <= 3)%nat /\
  outcome_of (passes 3 crowd) = Normal tt /\
  element_list (world_of (passes 3 crowd)) = [2%nat].
Proof.
  assert (Hn : (expired_count (expired_in crowd) [0; 1; 2; 3]%nat <= 3)%nat)
    by (vm_compute; lia).
  split; [exact labels_steady |]. split; [exact crowd_distinct |].
  split; [exact crowd_allocated |]. split; [exact Hn |].
  pose proof (passes_clear_expired 3 crowd _ labels_steady eq_refl crowd_distinct
                crowd_allocated Hn) as (Ho & Hl).
  split; [exact Ho |]. rewrite Hl. vm_compute. reflexivity.
Defined.

Lemma show_without_style_changes_nothing_witness :
  show_label "hello" blank = ([], blank, Raised (AttributeError "show_label")) /\
  show_button "done" tt (showing [] [])
    = ([], showing [] [], Raised (KeyError (PStr "done_button"))).
Proof.
  split.
  - exact (proj1 (proj1 (show_without_style_changes_nothing "hello" tt blank)
                    eq_refl)).
  - exact (proj2 (proj2 (show_without_style_changes_nothing "done" tt
                           (showing [] []))
                    _ [] eq_refl eq_refl) eq_refl).
Defined.

Lemma render_needs_two_dimensions_witness :
  GameApp_render blank = ([], blank, Raised TypeError) /\
  GameApp_render (set_size (PList [PInt 800]) playing)
    = ([], set_size (PList [PInt 800]) playing, Raised IndexError) /\
  as_thread (RenderThread_run 1) blank =
    ([a_clock_tick 300; a_thread_end (Some TypeError)],
     set_render_thread Finished blank, Normal tt).
Proof.
  pose proof (render_needs_two_dimensions blank) as (Hnone & _ & _ & Hthread).
  pose proof (render_needs_two_dimensions (set_size (PList [PInt 800]) playing))
    as (_ & _ & Hone & _).
  split; [exact (Hnone eq_refl) |]. split; [exact (Hone (PInt 800) eq_refl) |].
  exact (Hthread 0%nat TypeError eq_refl (Hnone eq_refl)).
Defined.


Lemma render_thread_never_stops_itself_witness :
  stopped playing = false /\
  stopped (world_of (RenderThread_run 2 playing)) = false /\
  frames (trace_of (RenderThread_run 2 playing)) = 2%nat.
Proof.
  split; [reflexivity |].
  pose proof (render_thread_never_stops_itself 2 playing eq_refl) as (Hst & Hm).
  split; [exact Hst |].
  assert (Ho : outcome_of (RenderThread_run 2 playing) = Diverged)
    by (vm_compute; reflexivity).
  rewrite Ho in Hm. exact Hm.
Defined.


Lemma constructor_hook_failure_witness :
  files Faulty.blank !! "settings.json" = Some "settings" /\
  outcome_of (GameApp_init (sub := Faulty.game) json_load "settings.json" Faulty.blank)
    = Raised (ForeignError "settings") /\
  trace_of (GameApp_init (sub := Faulty.game) json_load "settings.json" Faulty.blank)
    = [a_call h_load_game_settings_from_json].
Proof.
  assert (Hfile : files Faulty.blank !! "settings.json" = Some "settings")
    by (vm_compute; reflexivity).
  split; [exact Hfile |].
  rewrite (constructor_hook_failure (sub := Faulty.game) json_load
             "settings.json" "settings"
             _ _ (PStr "Cards") (PList [PInt 0; PInt 100; PInt 0])
             (PList [PInt 800; PInt 600]) (ForeignError "settings") Faulty.blank
             Hfile eq_refl eq_refl eq_refl eq_refl eq_refl eq_refl).
  split; reflexivity.
Defined.

Lemma incomplete_window_fails_witness :
  files blank !! "settings.json" = Some "settings" /\
  outcome_of (GameApp_init (fun _ => inr title_only) "settings.json" blank)
    = Raised (KeyError (PStr "background_color")) /\
  outcome_of (GameApp_init (fun _ => inr window_a_number) "settings.json" blank)
    = Raised TypeError.
Proof.
  assert (Hfile : files blank !! "settings.json" = Some "settings")
    by (vm_compute; reflexivity).
  split; [exact Hfile |]. split.
  - pose proof (incomplete_window_fails (fun _ => inr title_only)
                  "settings.json" "settings" _ blank Hfile eq_refl)
      as (Hdict & _).
    destruct (Hdict _ eq_refl) as (_ & Hbg & _).
    exact (proj1 (Hbg (PStr "Cards") eq_refl eq_refl)).
  - pose proof (incomplete_window_fails (fun _ => inr window_a_number)
                  "settings.json" "settings" _ blank Hfile eq_refl)
      as (_ & Hother).
    apply (Hother (PInt 3) eq_refl). intros win. discriminate.
Defined.

Lemma no_gui_settings_nothing_started_witness :
  has_key (settings_json (set_settings_json (PDict []) blank)) "gui" = false /\
  execute 1 (set_settings_json (PDict []) blank) =
  ([], set_settings_json (PDict []) blank, Raised (KeyError (PStr "gui"))).
Proof.
  split; [reflexivity |].
  destruct (no_gui_settings_nothing_started 1 (set_settings_json (PDict []) blank)
              eq_refl) as (e & _ & Hexec & He).
  rewrite Hexec, (He [] eq_refl). reflexivity.
Defined.

Lemma quit_ends_the_batch_witness :
  type quit_event = QUIT /\
  for_each ([mouse_up] ++ quit_event :: [mouse_down]) (process_event 1) playing =
  for_each ([mouse_up] ++ [quit_event]) (process_event 1) playing.
Proof.
  split; [reflexivity |].
  exact (proj1 (quit_ends_the_batch 1 quit_event [mouse_up] [mouse_down] playing
                  eq_refl)).
Defined.

Lemma game_logic_failure_ends_loop_witness :
  game_controller Faulty.playing = Some 0%nat /\
  trace_of (game_loop (sub := Faulty.game) 1 3 Faulty.playing)
    = [a_clock_tick 60; a_call h_execute_game] /\
  outcome_of (game_loop (sub := Faulty.game) 1 3 Faulty.playing)
    = Raised (ForeignError "logic").
Proof.
  split; [reflexivity |].
  pose proof (game_logic_failure_ends_loop (sub := Faulty.game) 1 2 Faulty.playing
                0%nat (ForeignError "logic") eq_refl (Forall_nil_2 _) eq_refl)
    as (Ht & Ho & _).
  split; [exact Ht | exact Ho].
Defined.

Lemma quit_ends_the_loop_witness :
  render_thread (set_event_queue [[key_down; quit_event; mouse_down]; [mouse_up]]
                   playing) <> Unstarted /\
  outcome_of (game_loop 1 1
    (set_event_queue [[key_down; quit_event; mouse_down]; [mouse_up]] playing))
    = Raised SystemExit /\
  event_queue (world_of (game_loop 1 1
    (set_event_queue [[key_down; quit_event; mouse_down]; [mouse_up]] playing)))
    = [[mouse_up]].
Proof.
  assert (Hth : render_thread
            (set_event_queue [[key_down; quit_event; mouse_down]; [mouse_up]]
               playing) <> Unstarted) by (vm_compute; discriminate).
  assert (Hpre : Forall other_event [key_down])
    by (repeat constructor; vm_compute; discriminate).
  split; [exact Hth |].
  pose proof (quit_ends_the_loop 0 0
                (set_event_queue [[key_down; quit_event; mouse_down]; [mouse_up]]
                   playing)
                [key_down] [mouse_down] quit_event
                [[mouse_up]] eq_refl Hpre eq_refl Hth)
    as (_ & _ & Ho & _ & _ & Hq).
  split; [exact Ho | exact Hq].
Defined.

Lemma quit_before_start_ends_loop_witness :
  render_thread (set_render_thread Unstarted
                   (set_event_queue [[quit_event]] playing)) = Unstarted /\
  outcome_of (game_loop 1 1
    (set_render_thread Unstarted (set_event_queue [[quit_event]] playing)))
    = Raised (RuntimeError "cannot join thread before it is started").
Proof.
  split; [reflexivity |].
  rewrite (quit_before_start_ends_loop (consts := pygame_1_9) 1 0
             (set_render_thread Unstarted (set_event_queue [[quit_event]] playing))
             [] [] quit_event [] eq_refl (Forall_nil_2 _) eq_refl eq_refl).
  reflexivity.
Defined.

Lemma execute_after_start_fails_witness :
  outcome_of (init_game playing) = Normal tt /\
  render_thread (world_of (init_game playing)) <> Unstarted /\
  outcome_of (execute 1 playing)
    = Raised (RuntimeError "threads can only be started once").
Proof.
  assert (Hinit : outcome_of (init_game playing) = Normal tt)
    by (vm_compute; reflexivity).
  assert (Hth : render_thread (world_of (init_game playing)) <> Unstarted)
    by (vm_compute; discriminate).
  split; [exact Hinit |]. split; [exact Hth |].
  rewrite (execute_after_start_fails 1 playing Hinit Hth). reflexivity.
Defined.

Lemma check_mouse_asks_each_element_witness :
  keeps_gui pointer /\
  (forall g pos d, keeps_gui (report g pos d)) /\
  trace_of (check_mouse pointer report 3 true playing)
    = [a_print "pressed"; a_print "pressed"].
Proof.
  assert (Hpos : keeps_gui pointer) by (intros w; reflexivity).
  assert (Hrep : forall g pos d, keeps_gui (report g pos d))
    by (intros g pos d w; reflexivity).
  split; [exact Hpos |]. split; [exact Hrep |].
  rewrite (proj1 (check_mouse_asks_each_element pointer report 3 true playing
                    Hpos Hrep) _ eq_refl); [reflexivity |].
  vm_compute. lia.
Defined.

(** ** The event step and the render loop on the concrete game *)

(** On an application whose render thread was never started, a quit event
    makes [process_events] store the flag and then fail in [join]: it does
    not wait for the thread and does not call [sys.exit]. *)
Lemma quit_with_thread_never_started :
  event_queue never_started = [[quit_event]] /\
  type quit_event = QUIT /\
  process_events 1 never_started =
  ([a_store_stopped true],
   set_stopped true (set_event_queue [] never_started),
   Raised (RuntimeError "cannot join thread before it is started")) /\
  ~ In a_thread_join (trace_of (process_events 1 never_started)) /\
  ~ In a_sys_exit (trace_of (process_events 1 never_started)) /\
  outcome_of (process_events 1 never_started) <> Raised SystemExit.
Proof.
  split; [reflexivity |]. split; [reflexivity |].
  split; [vm_compute; reflexivity |].
  split; [vm_compute; intros [H | []]; discriminate H |].
  split; [vm_compute; intros [H | []]; discriminate H |].
  vm_compute. discriminate.
Qed.

Lemma quit_sequence_witness :
  event_queue (set_event_queue [[mouse_up; quit_event; mouse_down]] playing)
    = ([mouse_up] ++ quit_event :: [mouse_down]) :: [] /\
  type quit_event = QUIT /\
  for_each [mouse_up] (process_event 1) (set_event_queue [] playing)
    = ([a_call (h_process_mouse_event false)], set_event_queue [] playing, Normal tt) /\
  render_thread (set_event_queue [] playing) <> Unstarted /\
  outcome_of (process_events 1
      (set_event_queue [[mouse_up; quit_event; mouse_down]] playing))
    = Raised SystemExit /\
  exists during,
    trace_of (process_events 1
      (set_event_queue [[mouse_up; quit_event; mouse_down]] playing)) =
    [a_call (h_process_mouse_event false)] ++
    a_store_stopped true :: a_thread_join :: during ++ [a_sys_exit] /\
    (frames during <= 1)%nat.
Proof.
  assert (Hpre : for_each [mouse_up] (process_event 1) (set_event_queue [] playing)
            = ([a_call (h_process_mouse_event false)], set_event_queue [] playing,
               Normal tt)) by (vm_compute; reflexivity).
  assert (Hth : render_thread (set_event_queue [] playing) <> Unstarted)
    by (vm_compute; discriminate).
  split; [reflexivity |]. split; [reflexivity |]. split; [exact Hpre |].
  split; [exact Hth |].
  pose proof (quit_sequence 0
                (set_event_queue [[mouse_up; quit_event; mouse_down]] playing)
                [mouse_up] [mouse_down] quit_event [] _ _
                eq_refl eq_refl Hpre Hth)
    as ((during & Ht & Hf & _) & Ho & _).
  split; [exact Ho |]. exists during. split; [exact Ht | exact Hf].
Defined.




Lemma two_labels_wf : gui_wf two_labels.
Proof.
  split; [| split].
  - apply (bool_decide_unpack _). vm_compute. exact I.
  - intros g Hg. unfold element_list in Hg. cbn in Hg.
    repeat (apply elem_of_cons in Hg as [-> | Hg]; [vm_compute; eauto |]).
    inversion Hg.
  - intros g Hg. destruct g as [| [| g]]; [cbn; lia | cbn; lia |].
    exfalso. unfold two_labels in Hg. cbn [heap set_heap] in Hg.
    rewrite !list_to_map_cons, list_to_map_nil in Hg.
    rewrite !lookup_insert_ne in Hg by discriminate.
    rewrite lookup_empty in Hg. destruct Hg; discriminate.
Qed.

Lemma gui_operations_keep_wf_witness :
  gui_wf two_labels /\
  element_list two_labels = [0; 1]%nat /\
  element_list (world_of (show_label "hello" two_labels)) = [0; 1; 2]%nat /\
  gui_wf (world_of (show_label "hello" two_labels)) /\
  gui_wf (world_of (show_button "done" tt two_labels)) /\
  gui_wf (world_of (GuiInterface_render two_labels)).
Proof.
  split; [exact two_labels_wf |]. split; [reflexivity |].
  split; [vm_compute; reflexivity |].
  pose proof (gui_operations_keep_wf two_labels "hello" tt two_labels_wf)
    as (Hlabel & _ & _ & Hrender & _).
  pose proof (gui_operations_keep_wf two_labels "done" tt two_labels_wf)
    as (_ & Hbutton & _).
  split; [exact Hlabel |]. split; [exact Hbutton | exact Hrender].
Defined.

Lemma shown_label_is_drawn_witness :
  steady_widgets (guilib := labels) /\ gui_wf two_labels /\ all_live two_labels /\
  is_expired (Title (PDict []) "hello") = false /\
  element_list (world_of (show_label "hello" two_labels)) = [0; 1; 2]%nat /\
  trace_of (GuiInterface_render (world_of (show_label "hello" two_labels)))
    = [a_widget_render 0%nat; a_widget_render 1%nat; a_widget_render 2%nat].
Proof.
  assert (Hlive : all_live two_labels).
  { intros g Hg. unfold element_list in Hg. cbn in Hg.
    destruct Hg as [<- | [<- | []]]; exists live; split; vm_compute; reflexivity. }
  split; [exact labels_steady |]. split; [exact two_labels_wf |].
  split; [exact Hlive |]. split; [reflexivity |].
  pose proof (shown_label_is_drawn "hello" two_labels _ (PDict []) labels_steady
                two_labels_wf Hlive eq_refl eq_refl eq_refl) as (_ & Hl & Ht & _).
  split; [exact Hl | exact Ht].
Defined.

Lemma idle_quiet_queue :
  Forall (Forall other_event)
    (event_queue (set_render_thread Finished (set_event_queue [[key_down]] playing))).
Proof.
  repeat constructor; vm_compute; discriminate.
Qed.

Lemma game_logic_once_per_tick_witness :
  (forall pc, render_thread
     (set_render_thread Finished (set_event_queue [[key_down]] playing))
     <> Running pc) /\
  game_controller (set_render_thread Finished (set_event_queue [[key_down]] playing))
    = Some 7%nat /\
  Forall (Forall other_event)
    (event_queue (set_render_thread Finished (set_event_queue [[key_down]] playing))) /\
  trace_of (game_loop 1 2
      (set_render_thread Finished (set_event_queue [[key_down]] playing))) =
    [a_clock_tick 60; a_call h_execute_game;
     a_clock_tick 60; a_call h_execute_game] /\
  game_controller (world_of (game_loop 1 2
      (set_render_thread Finished (set_event_queue [[key_down]] playing))))
    = Some 9%nat.
Proof.
  assert (Hidle : forall pc, render_thread
            (set_render_thread Finished (set_event_queue [[key_down]] playing))
            <> Running pc) by (intros pc; vm_compute; discriminate).
  split; [exact Hidle |]. split; [reflexivity |]. split; [exact idle_quiet_queue |].
  pose proof (game_logic_once_per_tick 1 2
                (set_render_thread Finished (set_event_queue [[key_down]] playing))
                7%nat Hidle eq_refl idle_quiet_queue (fun k _ => eq_refl))
    as (Ht & _ & Hc & _).
  split; [exact Ht | exact Hc].
Defined.
